(** * ai_therapist: the tool layer and the agent topology

    A shallow embedding of the state-mutating tool functions of
    [tools/task_tools.py], [tools/goal_tools.py], [tools/memory_tools.py] and
    [tools/datetime_tools.py], and of the agent configurations of
    [agents/*.py], followed by the properties of the specification that
    concern them.

    Conventions of the embedding.
    - A Python [str] is a [string]: the UTF-8 bytes of the text.  The two
      string methods the tools call, [str.lower] and [str.strip], are
      built-ins of the interpreter, driven by its Unicode tables, and not
      code of this repository: the embedding takes them as parameters
      ([StrMethods]) and every property holds for any pair of them.
      [ascii_methods] is their restriction to ASCII text, with which the
      examples run.
    - [tool_context.state] is the record [State]; a key that is absent from
      the Python state is [None].  Tasks, reminders and goals are the
      fixed-shape dictionaries their constructors build, hence records; a
      user's memory is a dictionary whose fields can be overwritten with a
      value of another shape, hence a map to dynamically typed values.
    - [datetime.now()] is an input of each call, carried by the context.
    - A tool call is a state transformer that also yields an outcome: a
      returned value or a raised exception.  The store keeps what was
      written before an exception was raised.
    - Logging and [print] calls are not part of the model. *)

From Stdlib Require Import ZArith String Ascii List DecimalString Lia.
From stdpp Require Import gmap strings list fin_maps.
Import ListNotations.

Set Warnings "-register-all".
#[local] Open Scope string_scope.

(** ** Python text *)

Module Py.

Definition nl : string := String (ascii_of_nat 10) EmptyString.

(** [str(n)] and [f"{n}"] for an [int]. *)
Definition str_of_Z (z : Z) : string := NilZero.string_of_int (Z.to_int z).
Definition str_of_nat (n : nat) : string := str_of_Z (Z.of_nat n).

(** Truth value of a [str]: non-empty. *)
Definition truthy (s : string) : bool :=
  match s with EmptyString => false | String _ _ => true end.

(** [s.lower()] and [s.strip()]: the two built-in methods of [str] the
    tools call.  They belong to the interpreter, not to the repository, and
    are parameters of the embedding. *)
Class StrMethods : Type := {
  lower : string -> string;
  strip : string -> string
}.

(** The two methods on ASCII text, where they can be written down without
    the Unicode tables: [A-Z] are lowered, and CPython's ASCII white space
    (TAB, LF, VT, FF, CR, FS, GS, RS, US and the space) is stripped. *)
Definition is_upper (c : ascii) : bool :=
  let n := nat_of_ascii c in (65 <=? n)%nat && (n <=? 90)%nat.

Definition lower_char (c : ascii) : ascii :=
  if is_upper c then ascii_of_nat (nat_of_ascii c + 32) else c.

Fixpoint ascii_lower (s : string) : string :=
  match s with
  | EmptyString => EmptyString
  | String c s' => String (lower_char c) (ascii_lower s')
  end.

Definition is_space (c : ascii) : bool :=
  let n := nat_of_ascii c in
  ((9 <=? n)%nat && (n <=? 13)%nat) || ((28 <=? n)%nat && (n <=? 32)%nat).

Fixpoint ascii_lstrip (s : string) : string :=
  match s with
  | EmptyString => EmptyString
  | String c s' => if is_space c then ascii_lstrip s' else s
  end.

Fixpoint ascii_rstrip (s : string) : string :=
  match s with
  | EmptyString => EmptyString
  | String c s' =>
      match ascii_rstrip s' with
      | EmptyString => if is_space c then EmptyString else String c EmptyString
      | r => String c r
      end
  end.

Definition ascii_strip (s : string) : string := ascii_rstrip (ascii_lstrip s).

Definition ascii_methods : StrMethods :=
  {| lower := ascii_lower; strip := ascii_strip |}.

(** [s[:n]]. *)
Definition take (n : nat) (s : string) : string := substring 0 n s.

(** Values that live in a user's memory dictionary and that
    [load_memory] hands back. *)
Inductive pyval : Type :=
| VStr (s : string)
| VList (l : list pyval)
| VDict (d : gmap string pyval).

Inductive exn : Type := KeyError | TypeError | AttributeError.

Inductive outcome (A : Type) : Type :=
| Ok (a : A)
| Raise (e : exn).
Arguments Ok {A} a.
Arguments Raise {A} e.

End Py.
Export Py.

(** ** The store *)

(** [datetime.now()], with the renderings the tools ask for. *)
Record datetime := {
  isoformat : string;          (* .isoformat() *)
  strftime_Ymd : string;       (* .strftime('%Y-%m-%d') *)
  strftime_A : string;         (* .strftime('%A') *)
  strftime_HM : string         (* .strftime('%H:%M') *)
}.

Record Task := {
  t_id : Z;
  t_user_id : string;
  t_title : string;
  t_due_date : string;
  t_priority : string;
  t_completed : bool;
  t_created_at : string
}.

Record Reminder := {
  r_id : Z;
  r_user_id : string;
  r_title : string;
  r_date : string;
  r_time : string;
  r_created_at : string
}.

Record Goal := {
  g_id : Z;
  g_user_id : string;
  g_title : string;
  g_description : string;
  g_routine : string;
  g_frequency : string;
  g_duration : string;
  g_start_date : string;
  g_status : string;
  g_created_at : string;
  g_approved : bool;
  g_approved_at : option string;   (* key added by approve_goal *)
  g_updated_at : option string     (* key added by update_goal_status *)
}.

(** [tool_context.state]: the four keys the tools read and write. *)
Record State := {
  tasks : option (list Task);
  reminders : option (list Reminder);
  goals : option (list Goal);
  user_memories : option (gmap string (gmap string pyval))
}.

(** The state of a fresh session: no key is set. *)
Definition empty_state : State :=
  {| tasks := None; reminders := None; goals := None; user_memories := None |}.

Definition set_tasks (l : list Task) (st : State) : State :=
  {| tasks := Some l; reminders := reminders st; goals := goals st;
     user_memories := user_memories st |}.

Definition set_reminders (l : list Reminder) (st : State) : State :=
  {| tasks := tasks st; reminders := Some l; goals := goals st;
     user_memories := user_memories st |}.

Definition set_goals (l : list Goal) (st : State) : State :=
  {| tasks := tasks st; reminders := reminders st; goals := Some l;
     user_memories := user_memories st |}.

Definition set_user_memories (m : gmap string (gmap string pyval)) (st : State)
  : State :=
  {| tasks := tasks st; reminders := reminders st; goals := goals st;
     user_memories := Some m |}.

(** [tool_context]: the identity the runtime injects and the clock. *)
Record ToolContext := {
  user_id : string;
  now : datetime
}.

(** ** tools/task_tools.py *)

Module task_tools.

Definition default_due_date : string := "".
Definition default_priority : string := "medium".

(** The dictionary literal [task = {...}] of [create_task], built while
    the list [ts] is [state['tasks']]. *)
Definition new_task (title : string) (tc : ToolContext)
    (due_date priority : string) (ts : list Task) : Task :=
  {| t_id := (Z.of_nat (length ts) + 1)%Z;
     t_user_id := user_id tc;
     t_title := title;
     t_due_date := due_date;
     t_priority := priority;
     t_completed := false;
     t_created_at := isoformat (now tc) |}.

(** [create_task(title, tool_context, due_date, priority)]. *)
Definition create_task (title : string) (tc : ToolContext)
    (due_date priority : string) (st : State) : string * State :=
  let st1 := match tasks st with Some _ => st | None => set_tasks [] st end in
  let ts := match tasks st1 with Some l => l | None => [] end in
  let task := new_task title tc due_date priority ts in
  ("✓ Task created: " ++ title
     ++ (if truthy due_date then " (due: " ++ due_date ++ ")" else ""),
   set_tasks (ts ++ [task]) st1).

(** [[t for t in state['tasks'] if t.get("user_id") == user_id]]. *)
Definition user_tasks (uid : string) (ts : list Task) : list Task :=
  List.filter (fun t => String.eqb (t_user_id t) uid) ts.

Definition task_line (task : Task) : string :=
  let due_info :=
    if truthy (t_due_date task) then " (due: " ++ t_due_date task ++ ")"
    else "" in
  Py.nl ++ "• " ++ t_title task ++ " - Priority: " ++ t_priority task
    ++ due_info.

(** What [get_tasks] answers once [user_tasks] is computed. *)
Definition render_tasks (mine : list Task) : string :=
  match mine with
  | [] => "You have no tasks."
  | _ =>
      fold_left (fun result task => result ++ task_line task) mine
        ("You have " ++ str_of_nat (length mine) ++ " task(s):" ++ Py.nl)
  end.

(** [get_tasks(tool_context)]. *)
Definition get_tasks (tc : ToolContext) (st : State) : string * State :=
  let st1 := match tasks st with Some _ => st | None => set_tasks [] st end in
  let ts := match tasks st1 with Some l => l | None => [] end in
  (render_tasks (user_tasks (user_id tc) ts), st1).

(** The dictionary literal [reminder = {...}] of [schedule_reminder]. *)
Definition new_reminder (title date time : string) (tc : ToolContext)
    (rs : list Reminder) : Reminder :=
  {| r_id := (Z.of_nat (length rs) + 1)%Z;
     r_user_id := user_id tc;
     r_title := title;
     r_date := date;
     r_time := time;
     r_created_at := isoformat (now tc) |}.

(** [schedule_reminder(title, date, time, tool_context)]. *)
Definition schedule_reminder (title date time : string) (tc : ToolContext)
    (st : State) : string * State :=
  let st1 :=
    match reminders st with Some _ => st | None => set_reminders [] st end in
  let rs := match reminders st1 with Some l => l | None => [] end in
  let reminder := new_reminder title date time tc rs in
  ("✓ Reminder set: " ++ title ++ " on " ++ date ++ " at " ++ time,
   set_reminders (rs ++ [reminder]) st1).

Definition user_reminders (uid : string) (rs : list Reminder)
  : list Reminder :=
  List.filter (fun r => String.eqb (r_user_id r) uid) rs.

Definition reminder_line (reminder : Reminder) : string :=
  Py.nl ++ "• " ++ r_title reminder ++ " - " ++ r_date reminder ++ " at "
    ++ r_time reminder.

(** [get_reminders(tool_context)]. *)
Definition get_reminders (tc : ToolContext) (st : State) : string * State :=
  let st1 :=
    match reminders st with Some _ => st | None => set_reminders [] st end in
  let rs := match reminders st1 with Some l => l | None => [] end in
  let mine := user_reminders (user_id tc) rs in
  match mine with
  | [] => ("You have no reminders scheduled.", st1)
  | _ =>
      (fold_left (fun result r => result ++ reminder_line r) mine
         ("You have " ++ str_of_nat (length mine) ++ " reminder(s):"
            ++ Py.nl),
       st1)
  end.

(** [get_all_items(tool_context)]. *)
Definition get_all_items {py : StrMethods} (tc : ToolContext) (st : State)
  : string * State :=
  let st1 := match tasks st with Some _ => st | None => set_tasks [] st end in
  let ts := match tasks st1 with Some l => l | None => [] end in
  let my_tasks := user_tasks (user_id tc) ts in
  let st2 :=
    match reminders st1 with Some _ => st1 | None => set_reminders [] st1 end in
  let rs := match reminders st2 with Some l => l | None => [] end in
  let my_reminders := user_reminders (user_id tc) rs in
  match my_tasks, my_reminders with
  | [], [] => ("You have no tasks or reminders.", st2)
  | _, _ =>
      let result := "" in
      let result :=
        match my_tasks with
        | [] => result
        | _ =>
            fold_left (fun acc task => acc ++ task_line task) my_tasks
              (result ++ Py.nl ++ "📋 **Tasks** ("
                 ++ str_of_nat (length my_tasks) ++ "):" ++ Py.nl)
        end in
      let result :=
        match my_reminders with
        | [] => result
        | _ =>
            fold_left (fun acc r => acc ++ reminder_line r) my_reminders
              (result ++ Py.nl ++ Py.nl ++ "📅 **Reminders** ("
                 ++ str_of_nat (length my_reminders) ++ "):" ++ Py.nl)
        end in
      (strip result, st2)
  end.

End task_tools.

(** ** tools/goal_tools.py *)

Module goal_tools.

(** [create_goal_with_routine(title, goal_description, routine, frequency,
    duration, start_date, tool_context)]. *)
Definition create_goal_with_routine
    (title goal_description routine frequency duration start_date : string)
    (tc : ToolContext) (st : State) : string * State :=
  let st1 := match goals st with Some _ => st | None => set_goals [] st end in
  let gs := match goals st1 with Some l => l | None => [] end in
  let goal_id := (Z.of_nat (length gs) + 1)%Z in
  let goal :=
    {| g_id := goal_id;
       g_user_id := user_id tc;
       g_title := title;
       g_description := goal_description;
       g_routine := routine;
       g_frequency := frequency;
       g_duration := duration;
       g_start_date := start_date;
       g_status := "pending_approval";
       g_created_at := isoformat (now tc);
       g_approved := false;
       g_approved_at := None;
       g_updated_at := None |} in
  (Py.nl ++ "📋 Goal Created (ID: " ++ str_of_Z goal_id
     ++ ") - Pending Your Approval" ++ Py.nl
     ++ Py.nl ++ "**" ++ title ++ "**" ++ Py.nl
     ++ Py.nl ++ "🎯 Goal: " ++ goal_description ++ Py.nl
     ++ Py.nl ++ "📅 Routine:" ++ Py.nl
     ++ routine ++ Py.nl
     ++ Py.nl ++ "⏰ Frequency: " ++ frequency ++ Py.nl
     ++ "⏳ Duration: " ++ duration ++ Py.nl
     ++ "🚀 Start Date: " ++ start_date ++ Py.nl
     ++ Py.nl
     ++ "Type 'approve' to activate this goal, or tell me what you'd like to change."
     ++ Py.nl,
   set_goals (gs ++ [goal]) st1).

(** [goal.get('id') == goal_id and goal.get('user_id') == user_id]. *)
Definition is_goal (goal_id : Z) (uid : string) (goal : Goal) : bool :=
  (g_id goal =? goal_id)%Z && String.eqb (g_user_id goal) uid.

(** The loop [for goal in goals: if ...: <mutate goal>; goal_found = True;
    break]: the first goal that passes the test is mutated in place.  The
    result is [None] when the loop ends with [goal_found] false, and
    otherwise the list after the mutation together with the goal the loop
    variable is left bound to. *)
Fixpoint update_first (test : Goal -> bool) (mutate : Goal -> Goal)
    (gs : list Goal) : option (list Goal * Goal) :=
  match gs with
  | [] => None
  | goal :: rest =>
      if test goal then Some (mutate goal :: rest, mutate goal)
      else
        match update_first test mutate rest with
        | Some (rest', found) => Some (goal :: rest', found)
        | None => None
        end
  end.

Definition approve (stamp : string) (goal : Goal) : Goal :=
  {| g_id := g_id goal; g_user_id := g_user_id goal; g_title := g_title goal;
     g_description := g_description goal; g_routine := g_routine goal;
     g_frequency := g_frequency goal; g_duration := g_duration goal;
     g_start_date := g_start_date goal;
     g_status := "active";
     g_created_at := g_created_at goal;
     g_approved := true;
     g_approved_at := Some stamp;
     g_updated_at := g_updated_at goal |}.

Definition set_status (status stamp : string) (goal : Goal) : Goal :=
  {| g_id := g_id goal; g_user_id := g_user_id goal; g_title := g_title goal;
     g_description := g_description goal; g_routine := g_routine goal;
     g_frequency := g_frequency goal; g_duration := g_duration goal;
     g_start_date := g_start_date goal;
     g_status := status;
     g_created_at := g_created_at goal;
     g_approved := g_approved goal;
     g_approved_at := g_approved_at goal;
     g_updated_at := Some stamp |}.

Definition not_found (goal_id : Z) : string :=
  "❌ Goal ID " ++ str_of_Z goal_id ++ " not found.".

Definition approved_message (goal : Goal) : string :=
  "✅ Goal '" ++ g_title goal ++ "' is now active! Let's make it happen! 🎉".

(** [approve_goal(goal_id, tool_context)]. *)
Definition approve_goal (goal_id : Z) (tc : ToolContext) (st : State)
  : string * State :=
  match goals st with
  | None => ("❌ No goals found to approve.", st)
  | Some gs =>
      match update_first (is_goal goal_id (user_id tc))
              (approve (isoformat (now tc))) gs with
      | None => (not_found goal_id, st)
      | Some (gs', goal) => (approved_message goal, set_goals gs' st)
      end
  end.

Definition goal_details (goal_id : Z) (goal : Goal) : string :=
  let status_emoji := if g_approved goal then "✅" else "⏳" in
  let status_text := if g_approved goal then "Active" else "Pending Approval" in
  Py.nl ++ status_emoji ++ " Goal #" ++ str_of_Z goal_id ++ ": **"
    ++ g_title goal ++ "** (" ++ status_text ++ ")" ++ Py.nl
    ++ Py.nl ++ "🎯 Goal: " ++ g_description goal ++ Py.nl
    ++ Py.nl ++ "📅 Routine:" ++ Py.nl
    ++ g_routine goal ++ Py.nl
    ++ Py.nl ++ "⏰ Frequency: " ++ g_frequency goal ++ Py.nl
    ++ "⏳ Duration: " ++ g_duration goal ++ Py.nl
    ++ "🚀 Start Date: " ++ g_start_date goal ++ Py.nl
    ++ "📆 Created: " ++ take 10 (g_created_at goal) ++ Py.nl.

(** [get_goal(goal_id, tool_context)]. *)
Definition get_goal (goal_id : Z) (tc : ToolContext) (st : State)
  : string * State :=
  match goals st with
  | None => ("❌ No goals found.", st)
  | Some gs =>
      match List.find (is_goal goal_id (user_id tc)) gs with
      | Some goal => (goal_details goal_id goal, st)
      | None => (not_found goal_id, st)
      end
  end.

Definition user_goals (uid : string) (gs : list Goal) : list Goal :=
  List.filter (fun g => String.eqb (g_user_id g) uid) gs.

Definition goal_summary (goal : Goal) : string :=
  let status_emoji := if g_approved goal then "✅" else "⏳" in
  let status_text := if g_approved goal then "Active" else "Pending" in
  status_emoji ++ " #" ++ str_of_Z (g_id goal) ++ ": **" ++ g_title goal
    ++ "** - " ++ status_text ++ Py.nl
    ++ "   " ++ g_description goal ++ Py.nl
    ++ "   " ++ g_frequency goal ++ " | Start: " ++ g_start_date goal
    ++ Py.nl ++ Py.nl.

Definition no_goals_yet : string :=
  "You don't have any goals yet. Let's create one!".

(** [list_goals(tool_context)]. *)
Definition list_goals (tc : ToolContext) (st : State) : string * State :=
  match goals st with
  | None => (no_goals_yet, st)
  | Some gs =>
      match user_goals (user_id tc) gs with
      | [] => (no_goals_yet, st)
      | mine =>
          (fold_left (fun result goal => result ++ goal_summary goal) mine
             ("📋 Your Goals (" ++ str_of_nat (length mine) ++ "):"
                ++ Py.nl ++ Py.nl)
             ++ Py.nl ++ "Use 'show goal #ID' to see full details of any goal.",
           st)
      end
  end.

(** [status_messages.get(status, f"✓ Goal status updated to: {status}")]. *)
Definition status_message (status : string) (goal : Goal) : string :=
  if String.eqb status "completed" then
    "🎉 Congratulations! Goal '" ++ g_title goal ++ "' marked as completed!"
  else if String.eqb status "paused" then
    "⏸️ Goal '" ++ g_title goal ++ "' paused. You can resume it anytime."
  else if String.eqb status "cancelled" then
    "🚫 Goal '" ++ g_title goal ++ "' cancelled."
  else if String.eqb status "active" then
    "✅ Goal '" ++ g_title goal ++ "' is now active!"
  else "✓ Goal status updated to: " ++ status.

(** [update_goal_status(goal_id, status, tool_context)]. *)
Definition update_goal_status (goal_id : Z) (status : string)
    (tc : ToolContext) (st : State) : string * State :=
  match goals st with
  | None => ("❌ No goals found.", st)
  | Some gs =>
      match update_first (is_goal goal_id (user_id tc))
              (set_status status (isoformat (now tc))) gs with
      | None => (not_found goal_id, st)
      | Some (gs', goal) => (status_message status goal, set_goals gs' st)
      end
  end.

End goal_tools.

(** ** tools/memory_tools.py *)

Module memory_tools.

(** The dictionary literal each of the three tools stores for a user who
    has no memory yet. *)
Definition default_memory : gmap string pyval :=
  {[ "personal_details" := VDict ∅;
     "preferences" := VDict ∅;
     "therapeutic_patterns" :=
       VDict {[ "triggers" := VDict ∅;
                "preferred_styles" := VList [];
                "avoided_styles" := VList [] ]};
     "history" := VList [];
     "interests" := VList [] ]}.

(** The two guards that open every tool of the file:
    [if 'user_memories' not in state: state['user_memories'] = {}] and
    [if user_id not in state['user_memories']: ... = {defaults}]. *)
Definition ensure_memory (uid : string) (st : State) : State :=
  let st1 :=
    match user_memories st with
    | Some _ => st
    | None => set_user_memories ∅ st
    end in
  let ums := default ∅ (user_memories st1) in
  match ums !! uid with
  | Some _ => st1
  | None => set_user_memories (<[uid := default_memory]> ums) st1
  end.

(** [state['user_memories'][user_id]] once the guards have run. *)
Definition memory_of (uid : string) (st : State) : gmap string pyval :=
  default ∅ (default ∅ (user_memories st) !! uid).

Definition set_memory (uid : string) (memory : gmap string pyval)
    (st : State) : State :=
  set_user_memories (<[uid := memory]> (default ∅ (user_memories st))) st.

(** [load_memory(tool_context)]: returns
    [{"user_id": user_id, "memory": state['user_memories'][user_id]}]. *)
Definition load_memory (tc : ToolContext) (st : State) : pyval * State :=
  let st1 := ensure_memory (user_id tc) st in
  (VDict {[ "user_id" := VStr (user_id tc);
            "memory" := VDict (memory_of (user_id tc) st1) ]},
   st1).

(** [memory[field][sub] = value]: [KeyError] when [field] is missing,
    [TypeError] when it holds a string or a list. *)
Definition set_item_in (field sub : string) (value : pyval)
    (memory : gmap string pyval) : outcome (gmap string pyval) :=
  match memory !! field with
  | None => Raise KeyError
  | Some (VDict d) => Ok (<[field := VDict (<[sub := value]> d)]> memory)
  | Some (VStr _) | Some (VList _) => Raise TypeError
  end.

(** [l = memory[field]; l.append(value); memory[field] = l]: [KeyError]
    when [field] is missing, [AttributeError] when it holds a value
    without [append]. *)
Definition append_to (field : string) (value : pyval)
    (memory : gmap string pyval) : outcome (gmap string pyval) :=
  match memory !! field with
  | None => Raise KeyError
  | Some (VList l) => Ok (<[field := VList (l ++ [value])]> memory)
  | Some (VStr _) | Some (VDict _) => Raise AttributeError
  end.

(** The [if key == ... elif ... else] ladder of [save_to_memory]. *)
Definition route (key value : string) (memory : gmap string pyval)
  : outcome (gmap string pyval) :=
  if String.eqb key "name" then
    set_item_in "personal_details" "name" (VStr value) memory
  else if String.eqb key "interests" then
    append_to "interests" (VStr value) memory
  else if String.eqb key "preferences" then
    set_item_in "preferences" "general" (VStr value) memory
  else if String.eqb key "history" then
    append_to "history" (VStr value) memory
  else Ok (<[key := VStr value]> memory).

(** [save_to_memory(key, value, tool_context)]. *)
Definition save_to_memory (key value : string) (tc : ToolContext)
    (st : State) : outcome string * State :=
  let st1 := ensure_memory (user_id tc) st in
  let memory := memory_of (user_id tc) st1 in
  match route key value memory with
  | Raise e => (Raise e, st1)
  | Ok memory' =>
      (Ok ("✓ Saved " ++ key ++ " to memory"),
       set_memory (user_id tc) memory' st1)
  end.

(** [trigger.lower().strip()]. *)
Definition trigger_key {py : StrMethods} (trigger : string) : string :=
  strip (lower trigger).

Definition empty_bucket : pyval :=
  VDict {[ "helpful_responses" := VList [];
           "unhelpful_responses" := VList [] ]}.

(** [if trigger_key not in patterns["triggers"]:
       patterns["triggers"][trigger_key] = {...}]
    on the value [triggers] that [patterns["triggers"]] holds.  On a
    string or a list either the assignment (key reported absent) or the
    later subscript (key reported present) raises [TypeError]. *)
Definition ensure_bucket (k : string) (triggers : pyval)
  : outcome (gmap string pyval) :=
  match triggers with
  | VDict t =>
      match t !! k with
      | Some _ => Ok t
      | None => Ok (<[k := empty_bucket]> t)
      end
  | VStr _ | VList _ => Raise TypeError
  end.

(** [bucket[field].append(entry)]. *)
Definition bucket_append (field : string) (entry : pyval) (bucket : pyval)
  : outcome pyval :=
  match bucket with
  | VDict b =>
      match b !! field with
      | None => Raise KeyError
      | Some (VList l) => Ok (VDict (<[field := VList (l ++ [entry])]> b))
      | Some (VStr _) | Some (VDict _) => Raise AttributeError
      end
  | VStr _ | VList _ => Raise TypeError
  end.

Definition pattern_entry (response stamp : string) : pyval :=
  VDict {[ "response" := VStr response; "timestamp" := VStr stamp ]}.

Definition response_field (helpful : bool) : string :=
  if helpful then "helpful_responses" else "unhelpful_responses".

Definition pattern_message (trigger : string) (helpful : bool) : string :=
  if helpful then "✓ Marked as helpful for '" ++ trigger ++ "'"
  else "✓ Marked as unhelpful for '" ++ trigger
         ++ "' - will try different approach next time".

(** The body of [save_therapeutic_pattern] from
    [patterns = memory["therapeutic_patterns"]] on, as a transformer of the
    user's memory dictionary.  The second component is the memory as the
    in-place writes left it, also when an exception ends the call. *)
Definition record_pattern (k response stamp : string) (helpful : bool)
    (memory : gmap string pyval) : outcome unit * gmap string pyval :=
  match memory !! "therapeutic_patterns" with
  | None => (Raise KeyError, memory)
  | Some (VStr _) | Some (VList _) => (Raise TypeError, memory)
  | Some (VDict patterns) =>
      match patterns !! "triggers" with
      | None => (Raise KeyError, memory)
      | Some triggers =>
          match ensure_bucket k triggers with
          | Raise e => (Raise e, memory)
          | Ok t =>
              let with_triggers (t' : gmap string pyval) :=
                <["therapeutic_patterns" :=
                    VDict (<["triggers" := VDict t']> patterns)]> memory in
              match t !! k with
              | None => (Raise KeyError, with_triggers t)
              | Some bucket =>
                  match bucket_append (response_field helpful)
                          (pattern_entry response stamp) bucket with
                  | Raise e => (Raise e, with_triggers t)
                  | Ok bucket' => (Ok tt, with_triggers (<[k := bucket']> t))
                  end
              end
          end
      end
  end.

(** [save_therapeutic_pattern(trigger, response, helpful, tool_context)]. *)
Definition save_therapeutic_pattern {py : StrMethods}
    (trigger response : string) (helpful : bool) (tc : ToolContext)
    (st : State)
  : outcome string * State :=
  let st1 := ensure_memory (user_id tc) st in
  let memory := memory_of (user_id tc) st1 in
  match record_pattern (trigger_key trigger) response (isoformat (now tc))
          helpful memory with
  | (Raise e, memory') => (Raise e, set_memory (user_id tc) memory' st1)
  | (Ok _, memory') =>
      (Ok (pattern_message trigger helpful),
       set_memory (user_id tc) memory' st1)
  end.

End memory_tools.

(** ** tools/datetime_tools.py *)

Module datetime_tools.

(** [get_current_datetime(tool_context)]. *)
Definition get_current_datetime (tc : ToolContext) (st : State)
  : string * State :=
  ("Date: " ++ strftime_Ymd (now tc) ++ " (" ++ strftime_A (now tc)
     ++ "), Time: " ++ strftime_HM (now tc),
   st).

End datetime_tools.

(** ** agents/*.py: the agent configurations *)

Module agents.

(** The functions an agent can list under [tools=]: the fourteen of
    [tools/__init__.py] and the runtime's [google_search]. *)
Inductive tool : Type :=
| fn_load_memory | fn_save_to_memory | fn_save_therapeutic_pattern
| fn_create_task | fn_get_tasks | fn_schedule_reminder | fn_get_reminders
| fn_get_all_items | fn_get_current_datetime
| fn_create_goal_with_routine | fn_approve_goal | fn_get_goal
| fn_list_goals | fn_update_goal_status
| fn_google_search.

(** [LlmAgent(name=, model=, tools=, sub_agents=, output_key=)] and
    [SequentialAgent(name=, sub_agents=)].  The [description] and
    [instruction] texts are prose for the language model and are left
    out. *)
Inductive agent : Type :=
| LlmAgent (name model : string) (tools : list tool)
    (sub_agents : list agent) (output_key : option string)
| SequentialAgent (name : string) (sub_agents : list agent).

Definition agent_name (a : agent) : string :=
  match a with
  | LlmAgent name _ _ _ _ => name
  | SequentialAgent name _ => name
  end.

Definition agent_tools (a : agent) : list tool :=
  match a with
  | LlmAgent _ _ tools _ _ => tools
  | SequentialAgent _ _ => []
  end.

Definition agent_sub_agents (a : agent) : list agent :=
  match a with
  | LlmAgent _ _ _ sub_agents _ => sub_agents
  | SequentialAgent _ sub_agents => sub_agents
  end.

(** The names of an agent and of everything below it. *)
Fixpoint agent_tree (a : agent) : list string :=
  match a with
  | LlmAgent name _ _ sub_agents _ =>
      name :: List.flat_map agent_tree sub_agents
  | SequentialAgent name sub_agents =>
      name :: List.flat_map agent_tree sub_agents
  end.

(** specialized_agents.py *)
Definition therapeutic_agent : agent :=
  LlmAgent "therapeutic_support" "gemini-2.5-flash-lite"
    [fn_load_memory; fn_save_therapeutic_pattern] [] None.

Definition task_agent : agent :=
  LlmAgent "task_manager" "gemini-2.5-flash-lite"
    [fn_get_current_datetime; fn_create_task; fn_get_tasks;
     fn_schedule_reminder; fn_get_reminders; fn_get_all_items] [] None.

(** goal_refinement_agent.py *)
Definition goal_refinement_agent : agent :=
  LlmAgent "goal_refinement" "gemini-2.0-flash"
    [fn_get_current_datetime; fn_create_goal_with_routine; fn_approve_goal;
     fn_get_goal; fn_list_goals; fn_update_goal_status] [] None.

(** search_agent.py *)
Definition search_agent : agent :=
  LlmAgent "search_specialist" "gemini-2.5-flash-lite"
    [fn_google_search] [] None.

(** sequential_agent.py *)
Definition emotion_extractor_agent : agent :=
  LlmAgent "emotion_extractor" "gemini-2.5-flash-lite" [] []
    (Some "emotion_data").

Definition pattern_analyzer_agent : agent :=
  LlmAgent "pattern_analyzer" "gemini-2.5-flash-lite" [] []
    (Some "patterns_found").

Definition insight_generator_agent : agent :=
  LlmAgent "insight_generator" "gemini-2.5-flash-lite"
    [fn_save_to_memory] [] (Some "final_insight").

Definition journal_analysis_flow : agent :=
  SequentialAgent "journal_analyzer"
    [emotion_extractor_agent; pattern_analyzer_agent;
     insight_generator_agent].

(** root_agent.py *)
Definition root_agent : agent :=
  LlmAgent "personal_assistant" "gemini-2.5-flash-lite"
    [fn_load_memory; fn_save_to_memory]
    [therapeutic_agent; task_agent; goal_refinement_agent; search_agent]
    None.

End agents.

(** ** Calling a tool *)

(** A call of one of the fourteen functions of [tools/__init__.py], with
    its explicit arguments. *)
Inductive tool_call : Type :=
| call_load_memory
| call_save_to_memory (key value : string)
| call_save_therapeutic_pattern (trigger response : string) (helpful : bool)
| call_create_task (title due_date priority : string)
| call_get_tasks
| call_schedule_reminder (title date time : string)
| call_get_reminders
| call_get_all_items
| call_get_current_datetime
| call_create_goal_with_routine
    (title goal_description routine frequency duration start_date : string)
| call_approve_goal (goal_id : Z)
| call_get_goal (goal_id : Z)
| call_list_goals
| call_update_goal_status (goal_id : Z) (status : string).

Definition returns_str (r : string * State) : outcome pyval * State :=
  (Ok (VStr (fst r)), snd r).

Definition may_return_str (r : outcome string * State)
  : outcome pyval * State :=
  match fst r with
  | Ok s => (Ok (VStr s), snd r)
  | Raise e => (Raise e, snd r)
  end.

(** The value a call hands back to its caller, as a Python value, and the
    store it leaves. *)
Definition invoke {py : StrMethods} (c : tool_call) (tc : ToolContext)
    (st : State) : outcome pyval * State :=
  match c with
  | call_load_memory =>
      let r := memory_tools.load_memory tc st in (Ok (fst r), snd r)
  | call_save_to_memory key value =>
      may_return_str (memory_tools.save_to_memory key value tc st)
  | call_save_therapeutic_pattern trigger response helpful =>
      may_return_str
        (memory_tools.save_therapeutic_pattern trigger response helpful tc st)
  | call_create_task title due_date priority =>
      returns_str (task_tools.create_task title tc due_date priority st)
  | call_get_tasks => returns_str (task_tools.get_tasks tc st)
  | call_schedule_reminder title date time =>
      returns_str (task_tools.schedule_reminder title date time tc st)
  | call_get_reminders => returns_str (task_tools.get_reminders tc st)
  | call_get_all_items => returns_str (task_tools.get_all_items tc st)
  | call_get_current_datetime =>
      returns_str (datetime_tools.get_current_datetime tc st)
  | call_create_goal_with_routine title goal_description routine frequency
      duration start_date =>
      returns_str
        (goal_tools.create_goal_with_routine title goal_description routine
           frequency duration start_date tc st)
  | call_approve_goal goal_id =>
      returns_str (goal_tools.approve_goal goal_id tc st)
  | call_get_goal goal_id => returns_str (goal_tools.get_goal goal_id tc st)
  | call_list_goals => returns_str (goal_tools.list_goals tc st)
  | call_update_goal_status goal_id status =>
      returns_str (goal_tools.update_goal_status goal_id status tc st)
  end.

(** A run of the store: the calls the agents make, each with the context
    the runtime injects, applied one after the other.  An exception ends a
    call, not the run. *)
Definition run {py : StrMethods} (trace : list (ToolContext * tool_call))
    (st : State) : State :=
  fold_left (fun st '(tc, c) => snd (invoke c tc st)) trace st.

Definition tasks_list (st : State) : list Task := default [] (tasks st).
Definition reminders_list (st : State) : list Reminder :=
  default [] (reminders st).

(** The tasks the [create_task] calls of a run append, each paired with the
    context of the call that made it, in call order. *)
Fixpoint created_tasks {py : StrMethods}
    (trace : list (ToolContext * tool_call)) (st : State)
  : list (ToolContext * Task) :=
  match trace with
  | [] => []
  | (tc, c) :: rest =>
      match c with
      | call_create_task title due_date priority =>
          [(tc, task_tools.new_task title tc due_date priority (tasks_list st))]
      | _ => []
      end ++ created_tasks rest (snd (invoke c tc st))
  end.

(** The tasks of a run that the calls of user [uid] created. *)
Definition created_by {py : StrMethods} (uid : string)
    (trace : list (ToolContext * tool_call)) (st : State) : list Task :=
  map snd
    (List.filter (fun p => String.eqb (user_id (fst p)) uid)
       (created_tasks trace st)).

(** ** Reading the store *)

Definition goals_list (st : State) : list Goal := default [] (goals st).

(** The tasks a call appends: one for [create_task], none otherwise. *)
Definition appended_tasks (c : tool_call) (tc : ToolContext)
    (ts : list Task) : list Task :=
  match c with
  | call_create_task title due_date priority =>
      [task_tools.new_task title tc due_date priority ts]
  | _ => []
  end.

Definition appended_reminders (c : tool_call) (tc : ToolContext)
    (rs : list Reminder) : list Reminder :=
  match c with
  | call_schedule_reminder title date time =>
      [task_tools.new_reminder title date time tc rs]
  | _ => []
  end.

(** Ids count the whole list: the task at position [k] has id [k + 1]. *)
Definition task_ids_in_sequence (ts : list Task) : Prop :=
  forall k t, ts !! k = Some t -> t_id t = (Z.of_nat k + 1)%Z.

Definition reminder_ids_in_sequence (rs : list Reminder) : Prop :=
  forall k r, rs !! k = Some r -> r_id r = (Z.of_nat k + 1)%Z.

(** [memory["therapeutic_patterns"]["triggers"]], when both are
    dictionaries. *)
Definition triggers_of (memory : gmap string pyval)
  : option (gmap string pyval) :=
  match memory !! "therapeutic_patterns" with
  | Some (VDict patterns) =>
      match patterns !! "triggers" with
      | Some (VDict t) => Some t
      | _ => None
      end
  | _ => None
  end.

(** [bucket[field]], when the bucket is a dictionary and the field a list. *)
Definition responses (field : string) (bucket : pyval)
  : option (list pyval) :=
  match bucket with
  | VDict b => match b !! field with Some (VList l) => Some l | _ => None end
  | _ => None
  end.

(** The helpful and the unhelpful responses of a bucket. *)
Definition both_lists (bucket : pyval) : option (list pyval * list pyval) :=
  match responses "helpful_responses" bucket,
        responses "unhelpful_responses" bucket with
  | Some hs, Some us => Some (hs, us)
  | _, _ => None
  end.

(** The two lists of the bucket of trigger key [k]; [None] when there is
    no such bucket or the record does not have the shape. *)
Definition lists_at (k : string) (memory : gmap string pyval)
  : option (list pyval * list pyval) :=
  match triggers_of memory with
  | Some t => match t !! k with Some bucket => both_lists bucket | None => None end
  | None => None
  end.

(** The same, counting a bucket that does not exist yet as two empty
    lists: what a call for [k] starts from. *)
Definition lists_before (k : string) (memory : gmap string pyval)
  : option (list pyval * list pyval) :=
  match triggers_of memory with
  | Some t =>
      match t !! k with Some bucket => both_lists bucket | None => Some ([], []) end
  | None => None
  end.

Definition add_entry (helpful : bool) (entry : pyval)
    (lists : list pyval * list pyval) : list pyval * list pyval :=
  if helpful then ((fst lists ++ [entry])%list, snd lists)
  else (fst lists, (snd lists ++ [entry])%list).

(** ** Further readings of the store *)

(** The reminders the [schedule_reminder] calls of a run append, each
    paired with the context of the call that made it, in call order. *)
Fixpoint scheduled_reminders {py : StrMethods}
    (trace : list (ToolContext * tool_call)) (st : State)
  : list (ToolContext * Reminder) :=
  match trace with
  | [] => []
  | (tc, c) :: rest =>
      match c with
      | call_schedule_reminder title date time =>
          [(tc, task_tools.new_reminder title date time tc (reminders_list st))]
      | _ => []
      end ++ scheduled_reminders rest (snd (invoke c tc st))
  end.

(** The reminders of a run that the calls of user [uid] scheduled. *)
Definition scheduled_by {py : StrMethods} (uid : string)
    (trace : list (ToolContext * tool_call)) (st : State) : list Reminder :=
  map snd
    (List.filter (fun p => String.eqb (user_id (fst p)) uid)
       (scheduled_reminders trace st)).

(** What [get_reminders] answers once [user_reminders] is computed. *)
Definition render_reminders (mine : list Reminder) : string :=
  match mine with
  | [] => "You have no reminders scheduled."
  | _ =>
      fold_left (fun result r => result ++ task_tools.reminder_line r) mine
        ("You have " ++ str_of_nat (length mine) ++ " reminder(s):" ++ Py.nl)
  end.

(** What [get_all_items] answers once both selections are computed. *)
Definition render_items {py : StrMethods} (my_tasks : list Task)
    (my_reminders : list Reminder) : string :=
  match my_tasks, my_reminders with
  | [], [] => "You have no tasks or reminders."
  | _, _ =>
      let result := "" in
      let result :=
        match my_tasks with
        | [] => result
        | _ =>
            fold_left (fun acc task => acc ++ task_tools.task_line task)
              my_tasks
              (result ++ Py.nl ++ "📋 **Tasks** ("
                 ++ str_of_nat (length my_tasks) ++ "):" ++ Py.nl)
        end in
      let result :=
        match my_reminders with
        | [] => result
        | _ =>
            fold_left (fun acc r => acc ++ task_tools.reminder_line r)
              my_reminders
              (result ++ Py.nl ++ Py.nl ++ "📅 **Reminders** ("
                 ++ str_of_nat (length my_reminders) ++ "):" ++ Py.nl)
        end in
      strip result
  end.

(** The dictionary literal [goal = {...}] of [create_goal_with_routine],
    built while the list [gs] is [state['goals']]. *)
Definition new_goal
    (title goal_description routine frequency duration start_date : string)
    (tc : ToolContext) (gs : list Goal) : Goal :=
  {| g_id := (Z.of_nat (length gs) + 1)%Z;
     g_user_id := user_id tc;
     g_title := title;
     g_description := goal_description;
     g_routine := routine;
     g_frequency := frequency;
     g_duration := duration;
     g_start_date := start_date;
     g_status := "pending_approval";
     g_created_at := isoformat (now tc);
     g_approved := false;
     g_approved_at := None;
     g_updated_at := None |}.

(** The list of goals a call leaves, from the list it finds. *)
Definition goals_after (c : tool_call) (tc : ToolContext) (gs : list Goal)
  : list Goal :=
  match c with
  | call_create_goal_with_routine title goal_description routine frequency
      duration start_date =>
      gs ++ [new_goal title goal_description routine frequency duration
               start_date tc gs]
  | call_approve_goal goal_id =>
      match goal_tools.update_first (goal_tools.is_goal goal_id (user_id tc))
              (goal_tools.approve (isoformat (now tc))) gs with
      | Some (gs', _) => gs'
      | None => gs
      end
  | call_update_goal_status goal_id status =>
      match goal_tools.update_first (goal_tools.is_goal goal_id (user_id tc))
              (goal_tools.set_status status (isoformat (now tc))) gs with
      | Some (gs', _) => gs'
      | None => gs
      end
  | _ => gs
  end.

(** The record of a user, if the store has one. *)
Definition record_of (uid : string) (st : State)
  : option (gmap string pyval) :=
  default ∅ (user_memories st) !! uid.

(** The tools that only look things up. *)
Definition is_read (c : tool_call) : bool :=
  match c with
  | call_get_tasks | call_get_reminders | call_get_all_items
  | call_get_current_datetime | call_get_goal _ | call_list_goals => true
  | _ => false
  end.

(** Ids that count a list from one: the id at position [k] is [k + 1]. *)
Definition counted (ids : list Z) : Prop :=
  ids = map (fun k => (Z.of_nat k + 1)%Z) (seq 0 (length ids)).

(** What [list_goals] answers once [user_goals] is computed. *)
Definition render_goals (mine : list Goal) : string :=
  match mine with
  | [] => goal_tools.no_goals_yet
  | _ =>
      fold_left (fun result goal => result ++ goal_tools.goal_summary goal)
        mine
        ("📋 Your Goals (" ++ str_of_nat (length mine) ++ "):"
           ++ Py.nl ++ Py.nl)
        ++ Py.nl ++ "Use 'show goal #ID' to see full details of any goal."
  end.

(** No call of the run is made by user [uid]. *)
Definition made_by_others (uid : string)
    (trace : list (ToolContext * tool_call)) : bool :=
  forallb (fun p => negb (String.eqb (user_id (fst p)) uid)) trace.

(** What user [uid] can read from a store: own tasks, reminders and goals,
    and own memory record. *)
Definition view (uid : string) (st : State)
  : list Task * list Reminder * list Goal * option (gmap string pyval) :=
  (task_tools.user_tasks uid (tasks_list st),
   task_tools.user_reminders uid (reminders_list st),
   goal_tools.user_goals uid (goals_list st),
   record_of uid st).

(** [if 'tasks' not in state: state['tasks'] = []], and the same for the
    reminders. *)
Definition init_tasks (st : State) : State :=
  match tasks st with Some _ => st | None => set_tasks [] st end.

Definition init_reminders (st : State) : State :=
  match reminders st with Some _ => st | None => set_reminders [] st end.

(** The shape every tool of [memory_tools.py] gives a new record and
    relies on: two dictionaries, two lists, and the trigger mapping with
    its buckets of two lists. *)
Definition shape_ok (memory : gmap string pyval) : Prop :=
  (exists d, memory !! "personal_details" = Some (VDict d))
  /\ (exists d, memory !! "preferences" = Some (VDict d))
  /\ (exists l, memory !! "history" = Some (VList l))
  /\ (exists l, memory !! "interests" = Some (VList l))
  /\ (exists t, triggers_of memory = Some t
        /\ forall k b, t !! k = Some b -> is_Some (both_lists b)).

(** Every record of the store has the shape. *)
Definition store_ok (st : State) : Prop :=
  forall uid memory, record_of uid st = Some memory -> shape_ok memory.

(** The calls that replace a structured field by a string. *)
Definition clobbers (c : tool_call) : bool :=
  match c with
  | call_save_to_memory key _ =>
      String.eqb key "personal_details"
      || String.eqb key "therapeutic_patterns"
  | _ => false
  end.

Definition careful (trace : list (ToolContext * tool_call)) : bool :=
  forallb (fun p => negb (clobbers (snd p))) trace.

Definition returned {A} (o : outcome A) : bool :=
  match o with Ok _ => true | Raise _ => false end.

(** What the calls of a run hand back, in call order. *)
Fixpoint outcomes {py : StrMethods}
    (trace : list (ToolContext * tool_call)) (st : State)
  : list (outcome pyval) :=
  match trace with
  | [] => []
  | (tc, c) :: rest =>
      fst (invoke c tc st) :: outcomes rest (snd (invoke c tc st))
  end.

(** [save_to_memory(key, v)] for each [v] of a list, in order, by one
    user. *)
Definition save_all (key : string) (values : list string) (tc : ToolContext)
    (st : State) : State :=
  fold_left (fun st v => snd (memory_tools.save_to_memory key v tc st))
    values st.

(** The record [load_memory] would hand to the user. *)
Definition loaded (uid : string) (st : State) : gmap string pyval :=
  memory_tools.memory_of uid (memory_tools.ensure_memory uid st).

(** A goal with its status and update time erased: what is left is all
    that [get_goal] and [list_goals] read. *)
Definition without_status (goal : Goal) : Goal :=
  {| g_id := g_id goal; g_user_id := g_user_id goal; g_title := g_title goal;
     g_description := g_description goal; g_routine := g_routine goal;
     g_frequency := g_frequency goal; g_duration := g_duration goal;
     g_start_date := g_start_date goal;
     g_status := "";
     g_created_at := g_created_at goal;
     g_approved := g_approved goal;
     g_approved_at := g_approved_at goal;
     g_updated_at := None |}.

(** The three tools that write memory records. *)
Definition writes_memory (c : tool_call) : bool :=
  match c with
  | call_load_memory | call_save_to_memory _ _
  | call_save_therapeutic_pattern _ _ _ => true
  | _ => false
  end.

(** The [create_task] calls user [uid] makes in a run, in call order, each
    as title, due date, priority and time of the call. *)
Definition task_requests (uid : string)
    (trace : list (ToolContext * tool_call))
  : list (string * string * string * string) :=
  List.flat_map
    (fun p =>
       match snd p with
       | call_create_task title due_date priority =>
           if String.eqb (user_id (fst p)) uid
           then [(title, due_date, priority, isoformat (now (fst p)))]
           else []
       | _ => []
       end)
    trace.

(** The [schedule_reminder] calls user [uid] makes in a run, in call order,
    each as title, date, time and time of the call. *)
Definition reminder_requests (uid : string)
    (trace : list (ToolContext * tool_call))
  : list (string * string * string * string) :=
  List.flat_map
    (fun p =>
       match snd p with
       | call_schedule_reminder title date time =>
           if String.eqb (user_id (fst p)) uid
           then [(title, date, time, isoformat (now (fst p)))]
           else []
       | _ => []
       end)
    trace.

(** ** Sample data *)

(** Sample data: two clock readings, two users, and the store after one
    user created a goal that nobody approved. *)
Definition monday_morning : datetime :=
  {| isoformat := "2025-12-01T10:30:00"; strftime_Ymd := "2025-12-01";
     strftime_A := "Monday"; strftime_HM := "10:30" |}.

Definition monday_noon : datetime :=
  {| isoformat := "2025-12-01T12:00:00"; strftime_Ymd := "2025-12-01";
     strftime_A := "Monday"; strftime_HM := "12:00" |}.

Definition alice : ToolContext := {| user_id := "alice"; now := monday_morning |}.
Definition alice_later : ToolContext := {| user_id := "alice"; now := monday_noon |}.
Definition bob : ToolContext := {| user_id := "bob"; now := monday_morning |}.

Definition walk_goal : Goal :=
  {| g_id := 1; g_user_id := "alice"; g_title := "Morning Walk Routine";
     g_description := "Build a consistent walking habit for fitness";
     g_routine := "Walk outside for 20 minutes";
     g_frequency := "3x per week"; g_duration := "30 days";
     g_start_date := "2025-12-02"; g_status := "pending_approval";
     g_created_at := "2025-12-01T10:30:00"; g_approved := false;
     g_approved_at := None; g_updated_at := None |}.

Definition pending_store : State :=
  snd (goal_tools.create_goal_with_routine "Morning Walk Routine"
         "Build a consistent walking habit for fitness"
         "Walk outside for 20 minutes" "3x per week" "30 days" "2025-12-02"
         alice empty_state).

(** Two users taking turns: three tasks and one reminder. *)
Definition sample_trace : list (ToolContext * tool_call) :=
  [(alice, call_create_task "Buy groceries" "" "medium");
   (bob, call_create_task "Finish report" "2025-12-06" "high");
   (bob, call_schedule_reminder "Take medicine" "2025-12-02" "15:00");
   (alice, call_get_tasks);
   (alice, call_create_task "Call dentist" "2025-12-02" "low")].

(** * Properties *)

(** ** What a call does to the task and reminder lists *)

Section Frames.

Local Ltac crush :=
  repeat match goal with
    | |- context [match ?x with _ => _ end] => destruct x eqn:?; simpl
    end;
  simpl; try reflexivity.

Lemma tasks_ensure_memory uid st :
  tasks (memory_tools.ensure_memory uid st) = tasks st.
Proof. unfold memory_tools.ensure_memory. crush. Qed.

Lemma reminders_ensure_memory uid st :
  reminders (memory_tools.ensure_memory uid st) = reminders st.
Proof. unfold memory_tools.ensure_memory. crush. Qed.

Lemma goals_ensure_memory uid st :
  goals (memory_tools.ensure_memory uid st) = goals st.
Proof. unfold memory_tools.ensure_memory. crush. Qed.

Local Ltac unfold_tools :=
  unfold invoke, returns_str, may_return_str,
    memory_tools.load_memory, memory_tools.save_to_memory,
    memory_tools.save_therapeutic_pattern,
    task_tools.create_task, task_tools.get_tasks,
    task_tools.schedule_reminder, task_tools.get_reminders,
    task_tools.get_all_items, datetime_tools.get_current_datetime,
    goal_tools.create_goal_with_routine, goal_tools.approve_goal,
    goal_tools.get_goal, goal_tools.list_goals,
    goal_tools.update_goal_status, memory_tools.set_memory;
  simpl.

Local Ltac frame :=
  repeat
    (rewrite ?tasks_ensure_memory, ?reminders_ensure_memory; simpl;
     match goal with
     | H : ?x = _ |- context [match ?x with _ => _ end] => rewrite H
     | |- context [match ?x with _ => _ end] => destruct x eqn:?
     end; simpl);
  rewrite ?tasks_ensure_memory, ?reminders_ensure_memory, ?app_nil_r;
  simpl; try reflexivity; try congruence.

Lemma invoke_tasks {py : StrMethods} c tc st :
  tasks_list (snd (invoke c tc st))
  = (tasks_list st ++ appended_tasks c tc (tasks_list st))%list.
Proof.
  unfold tasks_list.
  destruct c; unfold_tools;
    destruct (tasks st) eqn:Et; destruct (reminders st) eqn:Er; simpl;
    rewrite ?Et, ?Er; simpl; frame; rewrite ?Et, ?Er; reflexivity.
Qed.

Lemma invoke_reminders {py : StrMethods} c tc st :
  reminders_list (snd (invoke c tc st))
  = (reminders_list st ++ appended_reminders c tc (reminders_list st))%list.
Proof.
  unfold reminders_list.
  destruct c; unfold_tools;
    destruct (tasks st) eqn:Et; destruct (reminders st) eqn:Er; simpl;
    rewrite ?Et, ?Er; simpl; frame; rewrite ?Et, ?Er; reflexivity.
Qed.

End Frames.

(** ** Tasks and reminders over a run *)

Section Runs.

Implicit Types (trace : list (ToolContext * tool_call)) (st : State).

Lemma run_cons {py : StrMethods} tc c trace st :
  run ((tc, c) :: trace) st = run trace (snd (invoke c tc st)).
Proof. reflexivity. Qed.

(** The task list only grows, by the tasks the run creates, in order. *)
Lemma tasks_run {py : StrMethods} trace st :
  tasks_list (run trace st)
  = (tasks_list st ++ map snd (created_tasks trace st))%list.
Proof.
  revert st. induction trace as [|[tc c] trace IH]; intros st.
  - simpl. now rewrite app_nil_r.
  - rewrite run_cons, IH, invoke_tasks. simpl created_tasks.
    rewrite map_app, <- app_assoc. f_equal. f_equal.
    destruct c; reflexivity.
Qed.

(** A created task carries the identity of the call that made it. *)
Lemma created_tasks_owner {py : StrMethods} trace st :
  Forall (fun p => t_user_id (snd p) = user_id (fst p))
    (created_tasks trace st).
Proof.
  revert st. induction trace as [|[tc c] trace IH]; intros st; simpl.
  - constructor.
  - apply Forall_app. split; [|apply IH].
    destruct c; repeat constructor.
Qed.

Lemma user_tasks_of_pairs uid (ps : list (ToolContext * Task)) :
  Forall (fun p => t_user_id (snd p) = user_id (fst p)) ps ->
  task_tools.user_tasks uid (map snd ps)
  = map snd (List.filter (fun p => String.eqb (user_id (fst p)) uid) ps).
Proof.
  unfold task_tools.user_tasks.
  induction 1 as [|p ps Hp _ IH]; simpl; [reflexivity|].
  rewrite Hp. destruct (String.eqb (user_id (fst p)) uid); simpl;
    now rewrite IH.
Qed.

Lemma user_tasks_run {py : StrMethods} uid trace st :
  task_tools.user_tasks uid (tasks_list (run trace st))
  = (task_tools.user_tasks uid (tasks_list st)
       ++ created_by uid trace st)%list.
Proof.
  rewrite tasks_run. unfold task_tools.user_tasks at 1.
  rewrite List.filter_app. f_equal.
  apply user_tasks_of_pairs, created_tasks_owner.
Qed.

Lemma get_tasks_renders tc st :
  fst (task_tools.get_tasks tc st)
  = task_tools.render_tasks
      (task_tools.user_tasks (user_id tc) (tasks_list st)).
Proof.
  unfold task_tools.get_tasks, tasks_list.
  destruct (tasks st) eqn:E; simpl; now rewrite ?E.
Qed.

Lemma created_by_owner {py : StrMethods} uid trace st :
  Forall (fun t => t_user_id t = uid) (created_by uid trace st).
Proof.
  unfold created_by. apply List.Forall_forall. intros t Ht.
  apply List.in_map_iff in Ht. destruct Ht as [p [<- Hp]].
  apply List.filter_In in Hp. destruct Hp as [Hin Heq].
  apply String.eqb_eq in Heq. rewrite <- Heq.
  pose proof (created_tasks_owner trace st) as Hall.
  rewrite List.Forall_forall in Hall. now apply Hall.
Qed.

Lemma task_ids_snoc ts title tc due_date priority :
  task_ids_in_sequence ts ->
  task_ids_in_sequence
    (ts ++ [task_tools.new_task title tc due_date priority ts]).
Proof.
  intros H k t Hk.
  destruct (decide (k < length ts)) as [Hlt|Hge].
  - rewrite lookup_app_l in Hk by exact Hlt. now apply H.
  - rewrite lookup_app_r in Hk by lia.
    destruct (k - length ts) as [|n] eqn:E; simpl in Hk; [|discriminate].
    injection Hk as <-. simpl. f_equal. lia.
Qed.

Lemma reminder_ids_snoc rs title date time tc :
  reminder_ids_in_sequence rs ->
  reminder_ids_in_sequence
    (rs ++ [task_tools.new_reminder title date time tc rs]).
Proof.
  intros H k r Hk.
  destruct (decide (k < length rs)) as [Hlt|Hge].
  - rewrite lookup_app_l in Hk by exact Hlt. now apply H.
  - rewrite lookup_app_r in Hk by lia.
    destruct (k - length rs) as [|n] eqn:E; simpl in Hk; [|discriminate].
    injection Hk as <-. simpl. f_equal. lia.
Qed.

Lemma task_ids_invoke {py : StrMethods} c tc st :
  task_ids_in_sequence (tasks_list st) ->
  task_ids_in_sequence (tasks_list (snd (invoke c tc st))).
Proof.
  intros H. rewrite invoke_tasks.
  destruct c; simpl; rewrite ?app_nil_r; try exact H.
  now apply task_ids_snoc.
Qed.

Lemma reminder_ids_invoke {py : StrMethods} c tc st :
  reminder_ids_in_sequence (reminders_list st) ->
  reminder_ids_in_sequence (reminders_list (snd (invoke c tc st))).
Proof.
  intros H. rewrite invoke_reminders.
  destruct c; simpl; rewrite ?app_nil_r; try exact H.
  now apply reminder_ids_snoc.
Qed.

Lemma ids_run {py : StrMethods} trace st :
  task_ids_in_sequence (tasks_list st) ->
  reminder_ids_in_sequence (reminders_list st) ->
  task_ids_in_sequence (tasks_list (run trace st))
  /\ reminder_ids_in_sequence (reminders_list (run trace st)).
Proof.
  revert st. induction trace as [|[tc c] trace IH]; intros st Ht Hr.
  - now split.
  - rewrite run_cons.
    apply IH; [now apply task_ids_invoke | now apply reminder_ids_invoke].
Qed.

Lemma task_ids_distinct ts :
  task_ids_in_sequence ts -> NoDup (map t_id ts).
Proof.
  intros H. apply NoDup_alt. intros i j x Hi Hj.
  rewrite list_lookup_fmap in Hi, Hj.
  destruct (ts !! i) as [ti|] eqn:Ei; [|discriminate].
  destruct (ts !! j) as [tj|] eqn:Ej; [|discriminate].
  simpl in Hi, Hj. apply H in Ei, Ej.
  injection Hi as Hi. injection Hj as Hj. lia.
Qed.

Lemma reminder_ids_distinct rs :
  reminder_ids_in_sequence rs -> NoDup (map r_id rs).
Proof.
  intros H. apply NoDup_alt. intros i j x Hi Hj.
  rewrite list_lookup_fmap in Hi, Hj.
  destruct (rs !! i) as [ri|] eqn:Ei; [|discriminate].
  destruct (rs !! j) as [rj|] eqn:Ej; [|discriminate].
  simpl in Hi, Hj. apply H in Ei, Ej.
  injection Hi as Hi. injection Hj as Hj. lia.
Qed.

Lemma ids_listed {A} (f : A -> Z) (l : list A) :
  (forall k x, l !! k = Some x -> f x = (Z.of_nat k + 1)%Z) ->
  map f l = map (fun k => (Z.of_nat k + 1)%Z) (seq 0 (length l)).
Proof.
  intros H. apply list_eq. intros i. rewrite !list_lookup_fmap.
  destruct (l !! i) as [x|] eqn:E; simpl.
  - rewrite lookup_seq_lt by (eapply lookup_lt_Some; exact E).
    simpl. f_equal. now apply H.
  - apply lookup_ge_None in E. now rewrite lookup_seq_ge.
Qed.

End Runs.

(** ** The text of a listing *)

Section Listings.

Lemma str_app_nil_l (s : string) : "" ++ s = s.
Proof. reflexivity. Qed.

Lemma str_app_cons (c : ascii) (a b : string) :
  String c a ++ b = String c (a ++ b).
Proof. reflexivity. Qed.

Lemma str_app_nil_r (s : string) : s ++ "" = s.
Proof.
  induction s as [|c s IH]; [reflexivity|]. now rewrite str_app_cons, IH.
Qed.

Lemma str_app_assoc (a b c : string) : (a ++ b) ++ c = a ++ (b ++ c).
Proof.
  induction a as [|x a IH]; [reflexivity|].
  now rewrite !str_app_cons, IH.
Qed.

Lemma fold_left_append {A} (f : A -> string) (l : list A) (init : string) :
  fold_left (fun acc x => acc ++ f x) l init
  = init ++ fold_left (fun acc x => acc ++ f x) l "".
Proof.
  revert init. induction l as [|x l IH]; intros init; simpl.
  - now rewrite str_app_nil_r.
  - rewrite str_app_nil_l, IH, (IH (f x)). now rewrite str_app_assoc.
Qed.

Lemma concat_cons (x : string) (l : list string) :
  String.concat "" (x :: l) = x ++ String.concat "" l.
Proof.
  destruct l as [|y l]; cbn [String.concat].
  - now rewrite str_app_nil_r.
  - now rewrite str_app_nil_l.
Qed.

(** The loop [for x in l: result += f(x)] appends the pieces in order. *)
Lemma fold_left_concat {A} (f : A -> string) (l : list A) (init : string) :
  fold_left (fun acc x => acc ++ f x) l init
  = init ++ String.concat "" (map f l).
Proof.
  rewrite fold_left_append. f_equal.
  induction l as [|x l IH]; [reflexivity|].
  cbn [fold_left map]. rewrite str_app_nil_l, fold_left_append, IH.
  now rewrite concat_cons.
Qed.

Lemma render_tasks_text (l : list Task) :
  task_tools.render_tasks l
  = match l with
    | [] => "You have no tasks."
    | _ =>
        "You have " ++ str_of_nat (length l) ++ " task(s):" ++ Py.nl
          ++ String.concat ""
               (map (fun t =>
                       Py.nl ++ "• " ++ t_title t ++ " - Priority: "
                         ++ t_priority t
                         ++ match t_due_date t with
                            | EmptyString => ""
                            | String _ _ => " (due: " ++ t_due_date t ++ ")"
                            end) l)
    end.
Proof.
  destruct l as [|t l]; [reflexivity|].
  unfold task_tools.render_tasks. rewrite fold_left_concat.
  rewrite !str_app_assoc. do 5 f_equal.
  apply map_ext. intros x. unfold task_tools.task_line.
  now destruct (t_due_date x).
Qed.

Lemma created_by_fields {py : StrMethods} uid
    (trace : list (ToolContext * tool_call)) st :
  map (fun t => (t_title t, t_due_date t, t_priority t, t_created_at t))
    (created_by uid trace st)
  = task_requests uid trace.
Proof.
  unfold created_by, task_requests.
  revert st. induction trace as [|[tc c] trace IH]; intros st;
    [reflexivity|].
  cbn [created_tasks List.flat_map fst snd].
  rewrite List.filter_app, !map_app, IH. f_equal.
  destruct c; try reflexivity.
  cbn [List.filter fst snd]. now destruct (String.eqb (user_id tc) uid).
Qed.

End Listings.

(** C1.  After any run of tool calls on a fresh store (the [create_task]
    calls of a user interleaved at will with calls of other users),
    [get_tasks] for a user selects exactly the tasks that user's
    [create_task] calls created, in the order of the calls: each carries
    the title, due date and priority that were asked for and the time of
    its call, belongs to the user and is not completed.  The text returned
    is "You have no tasks." when the user created none, and otherwise the
    count followed by one line per task, title, priority and due date, in
    that order; no task of another user is listed. *)
Theorem get_tasks_returns_own_tasks_in_creation_order :
  forall (py : StrMethods) (trace : list (ToolContext * tool_call))
         (tc : ToolContext),
    let st := run trace empty_state in
    let mine := created_by (user_id tc) trace empty_state in
    let asked := task_requests (user_id tc) trace in
    task_tools.user_tasks (user_id tc) (tasks_list st) = mine
    /\ map (fun t => (t_title t, t_due_date t, t_priority t, t_created_at t))
         mine = asked
    /\ fst (task_tools.get_tasks tc st)
       = match asked with
         | [] => "You have no tasks."
         | _ =>
             "You have " ++ str_of_nat (length asked) ++ " task(s):" ++ Py.nl
               ++ String.concat ""
                    (map (fun '(title, due_date, priority, _) =>
                            Py.nl ++ "• " ++ title ++ " - Priority: "
                              ++ priority
                              ++ match due_date with
                                 | EmptyString => ""
                                 | String _ _ => " (due: " ++ due_date ++ ")"
                                 end) asked)
         end
    /\ Forall (fun t => t_user_id t = user_id tc /\ t_completed t = false)
         mine.
Proof.
  intros py trace tc st mine asked.
  assert (Hsel : task_tools.user_tasks (user_id tc) (tasks_list st) = mine).
  { unfold st, mine. now rewrite user_tasks_run. }
  assert (Hasked : map (fun t => (t_title t, t_due_date t, t_priority t,
                                  t_created_at t)) mine = asked).
  { apply created_by_fields. }
  split; [exact Hsel|]. split; [exact Hasked|]. split.
  - rewrite get_tasks_renders, Hsel, render_tasks_text.
    rewrite <- Hasked. rewrite length_map, map_map.
    destruct mine as [|t l]; reflexivity.
  - pose proof (created_by_owner (user_id tc) trace empty_state) as Hown.
    fold mine in Hown. apply List.Forall_forall. intros t Ht. split.
    + rewrite List.Forall_forall in Hown. now apply Hown.
    + unfold mine, created_by in Ht. apply List.in_map_iff in Ht.
      destruct Ht as [p [<- Hp]]. apply List.filter_In in Hp.
      destruct Hp as [Hin _]. clear -Hin.
      revert Hin. generalize empty_state as s.
      induction trace as [|[tc' c] trace IH]; intros s Hin; [contradiction|].
      cbn [created_tasks] in Hin. apply List.in_app_or in Hin.
      destruct Hin as [Hin|Hin]; [|exact (IH _ Hin)].
      destruct c; try contradiction.
      destruct Hin as [<-|[]]. reflexivity.
Qed.

(** C8.  Ids come from one sequence shared by all users.  A [create_task]
    call appends one task whose id is the number of tasks in the store plus
    one, whoever calls; after any run on a fresh store the task at position
    [k] of the store, which is the [k+1]-th task created, has id [k + 1],
    and the ids are pairwise distinct.  The same holds for
    [schedule_reminder] and the reminders. *)
Theorem ids_count_the_shared_collection :
  forall (py : StrMethods) (trace : list (ToolContext * tool_call)),
    let st := run trace empty_state in
    (forall title tc due_date priority st0,
        exists t,
          tasks_list (snd (task_tools.create_task title tc due_date priority st0))
          = (tasks_list st0 ++ [t])%list
          /\ t_id t = (Z.of_nat (length (tasks_list st0)) + 1)%Z)
    /\ tasks_list st = map snd (created_tasks trace empty_state)
    /\ map t_id (tasks_list st)
       = map (fun k => (Z.of_nat k + 1)%Z) (seq 0 (length (tasks_list st)))
    /\ NoDup (map t_id (tasks_list st))
    /\ (forall title date time tc st0,
        exists r,
          reminders_list
            (snd (task_tools.schedule_reminder title date time tc st0))
          = (reminders_list st0 ++ [r])%list
          /\ r_id r = (Z.of_nat (length (reminders_list st0)) + 1)%Z)
    /\ map r_id (reminders_list st)
       = map (fun k => (Z.of_nat k + 1)%Z)
           (seq 0 (length (reminders_list st)))
    /\ NoDup (map r_id (reminders_list st)).
Proof.
  intros py trace st.
  destruct (ids_run trace empty_state) as [Ht Hr].
  { intros k t Hk. destruct k; discriminate. }
  { intros k r Hk. destruct k; discriminate. }
  repeat split.
  - intros title tc due_date priority st0.
    exists (task_tools.new_task title tc due_date priority (tasks_list st0)).
    split; [|reflexivity].
    exact (invoke_tasks (call_create_task title due_date priority) tc st0).
  - unfold st. now rewrite tasks_run.
  - now apply ids_listed.
  - now apply task_ids_distinct.
  - intros title date time tc st0.
    exists (task_tools.new_reminder title date time tc (reminders_list st0)).
    split; [|reflexivity].
    exact (invoke_reminders (call_schedule_reminder title date time) tc st0).
  - now apply ids_listed.
  - now apply reminder_ids_distinct.
Qed.

(** ** Goals: the shared loop of [approve_goal] and [update_goal_status] *)

Section Goals.

Variables (test : Goal -> bool) (mutate : Goal -> Goal).

Lemma update_first_miss gs :
  List.find test gs = None -> goal_tools.update_first test mutate gs = None.
Proof.
  induction gs as [|g gs IH]; simpl; [reflexivity|].
  destruct (test g); [discriminate|]. intros H. now rewrite IH.
Qed.

(** The loop is left with its variable bound to the first goal that
    passes the test, mutated; when the mutation does not change what the
    test reads, a later lookup finds that goal. *)
Lemma update_first_hit gs g :
  (forall x, test (mutate x) = test x) ->
  List.find test gs = Some g ->
  exists gs',
    goal_tools.update_first test mutate gs = Some (gs', mutate g)
    /\ List.find test gs' = Some (mutate g)
    /\ length gs' = length gs.
Proof.
  intros Hkeep. induction gs as [|x gs IH]; simpl; [discriminate|].
  destruct (test x) eqn:Ex.
  - intros [= <-]. eexists. split; [reflexivity|]. simpl.
    now rewrite Hkeep, Ex.
  - intros H. destruct (IH H) as (gs' & -> & Hfind & Hlen).
    eexists. split; [reflexivity|]. simpl. rewrite Ex. auto.
Qed.

(** A second pass whose mutation absorbs the first one gives what it
    would have given alone. *)
Lemma update_first_absorb (again : Goal -> Goal) gs gs1 g1 :
  (forall x, test (mutate x) = test x) ->
  (forall x, again (mutate x) = again x) ->
  goal_tools.update_first test mutate gs = Some (gs1, g1) ->
  goal_tools.update_first test again gs1
  = goal_tools.update_first test again gs.
Proof.
  intros Hkeep Habsorb. revert gs1 g1.
  induction gs as [|x gs IH]; simpl; intros gs1 g1; [discriminate|].
  destruct (test x) eqn:Ex.
  - intros [= <- <-]. simpl. now rewrite Hkeep, Ex, Habsorb.
  - destruct (goal_tools.update_first test mutate gs) as [[gs' g']|] eqn:E;
      [|discriminate].
    intros [= <- <-]. simpl. rewrite Ex. now rewrite (IH _ _ eq_refl).
Qed.

End Goals.

Lemma is_goal_approve goal_id uid stamp g :
  goal_tools.is_goal goal_id uid (goal_tools.approve stamp g)
  = goal_tools.is_goal goal_id uid g.
Proof. reflexivity. Qed.

Lemma is_goal_set_status goal_id uid status stamp g :
  goal_tools.is_goal goal_id uid (goal_tools.set_status status stamp g)
  = goal_tools.is_goal goal_id uid g.
Proof. reflexivity. Qed.

Lemma find_is_goal_none goal_id uid gs :
  (forall g, In g gs -> ~ (g_id g = goal_id /\ g_user_id g = uid)) ->
  List.find (goal_tools.is_goal goal_id uid) gs = None.
Proof.
  intros H. destruct (List.find _ gs) as [g|] eqn:E; [|reflexivity].
  apply List.find_some in E. destruct E as [Hin Hg].
  unfold goal_tools.is_goal in Hg. apply andb_prop in Hg.
  destruct Hg as [Hid Hu]. apply Z.eqb_eq in Hid. apply String.eqb_eq in Hu.
  exfalso. exact (H g Hin (conj Hid Hu)).
Qed.

(** C2.  For a goal id that exists for the calling user, approving twice in
    succession leaves the goal approved and active; the second call answers
    with the confirmation, not with a not-found message, and the store it
    leaves is the one a single approval at the second call's time would
    have left. *)
Theorem approve_goal_twice :
  forall (goal_id : Z) (tc1 tc2 : ToolContext) (st : State)
         (gs : list Goal) (g : Goal),
    user_id tc1 = user_id tc2 ->
    goals st = Some gs ->
    List.find (goal_tools.is_goal goal_id (user_id tc1)) gs = Some g ->
    let st1 := snd (goal_tools.approve_goal goal_id tc1 st) in
    let r2 := goal_tools.approve_goal goal_id tc2 st1 in
    fst r2 = "✅ Goal '" ++ g_title g ++ "' is now active! Let's make it happen! 🎉"
    /\ fst r2 <> goal_tools.not_found goal_id
    /\ snd r2 = snd (goal_tools.approve_goal goal_id tc2 st)
    /\ exists g2,
         List.find (goal_tools.is_goal goal_id (user_id tc1))
           (goals_list (snd r2)) = Some g2
         /\ g_approved g2 = true
         /\ g_status g2 = "active".
Proof.
  intros goal_id tc1 tc2 st gs g Hu Hgs Hfind st1 r2.
  pose proof (is_goal_approve goal_id (user_id tc1)) as Hkeep.
  destruct (update_first_hit _ (goal_tools.approve (isoformat (now tc1))) gs g
              (Hkeep _) Hfind) as (gs1 & Hup1 & Hfind1 & _).
  assert (Hst1 : st1 = set_goals gs1 st).
  { unfold st1, goal_tools.approve_goal. now rewrite Hgs, Hup1. }
  destruct (update_first_hit _ (goal_tools.approve (isoformat (now tc2))) gs1 _
              (Hkeep _) Hfind1) as (gs2 & Hup2 & Hfind2 & _).
  assert (Hr2 : r2 = (goal_tools.approved_message g, set_goals gs2 st1)).
  { unfold r2, goal_tools.approve_goal. rewrite Hst1 at 1. simpl.
    rewrite <- Hu, Hup2. reflexivity. }
  assert (Habs : goal_tools.update_first
                   (goal_tools.is_goal goal_id (user_id tc1))
                   (goal_tools.approve (isoformat (now tc2))) gs
                 = Some (gs2, goal_tools.approve (isoformat (now tc2)) g)).
  { rewrite <- (update_first_absorb _ _ (goal_tools.approve (isoformat (now tc2)))
                  gs gs1 _ (Hkeep _) (fun x => eq_refl) Hup1).
    exact Hup2. }
  rewrite Hr2. simpl. repeat split.
  - unfold goal_tools.not_found. simpl. discriminate.
  - unfold goal_tools.approve_goal. rewrite Hgs, <- Hu, Habs, Hst1.
    reflexivity.
  - eexists. split; [exact Hfind2|]. split; reflexivity.
Qed.

Example pending_store_goals : goals pending_store = Some [walk_goal].
Proof. reflexivity. Qed.

Lemma approve_goal_twice_witness :
  user_id alice = user_id alice_later
  /\ goals pending_store = Some [walk_goal]
  /\ List.find (goal_tools.is_goal 1 (user_id alice)) [walk_goal]
     = Some walk_goal
  /\ fst (goal_tools.approve_goal 1 alice_later
            (snd (goal_tools.approve_goal 1 alice pending_store)))
     = "✅ Goal 'Morning Walk Routine' is now active! Let's make it happen! 🎉".
Proof.
  split; [reflexivity|]. split; [reflexivity|]. split; [reflexivity|].
  exact (proj1 (approve_goal_twice 1 alice alice_later pending_store
                  [walk_goal] walk_goal eq_refl eq_refl eq_refl)).
Defined.

(** C3.  For a goal that exists for the calling user, whatever its status
    and whether or not it was approved, and for any status string,
    [update_goal_status] answers with the message for that status (not with
    a not-found message) and leaves the goal with exactly that string as its
    status; the approval flag is not read and not changed. *)
Theorem update_goal_status_overwrites :
  forall (goal_id : Z) (status : string) (tc : ToolContext) (st : State)
         (gs : list Goal) (g : Goal),
    goals st = Some gs ->
    List.find (goal_tools.is_goal goal_id (user_id tc)) gs = Some g ->
    exists gs' g',
      goal_tools.update_goal_status goal_id status tc st
      = (goal_tools.status_message status g, set_goals gs' st)
      /\ goal_tools.status_message status g <> goal_tools.not_found goal_id
      /\ goal_tools.status_message status g <> "❌ No goals found."
      /\ List.find (goal_tools.is_goal goal_id (user_id tc)) gs' = Some g'
      /\ g_status g' = status
      /\ g_approved g' = g_approved g
      /\ g_updated_at g' = Some (isoformat (now tc)).
Proof.
  intros goal_id status tc st gs g Hgs Hfind.
  destruct (update_first_hit _
              (goal_tools.set_status status (isoformat (now tc))) gs g
              (is_goal_set_status goal_id (user_id tc) status _) Hfind)
    as (gs' & Hup & Hfind' & _).
  exists gs', (goal_tools.set_status status (isoformat (now tc)) g).
  split.
  { unfold goal_tools.update_goal_status. now rewrite Hgs, Hup. }
  assert (Hmsg : forall s : string,
             String.get 1 s = Some (ascii_of_nat 157) ->
             goal_tools.status_message status g <> s).
  { intros s Hs Heq. rewrite <- Heq in Hs.
    unfold goal_tools.status_message in Hs.
    repeat match type of Hs with
           | context [if ?b then _ else _] => destruct b
           end; simpl in Hs; discriminate. }
  repeat split; try (apply Hmsg; reflexivity); assumption.
Qed.

Lemma update_goal_status_overwrites_witness :
  goals pending_store = Some [walk_goal]
  /\ List.find (goal_tools.is_goal 1 (user_id alice_later)) [walk_goal]
     = Some walk_goal
  /\ exists gs' g',
       goal_tools.update_goal_status 1 "someday" alice_later pending_store
       = (goal_tools.status_message "someday" walk_goal,
          set_goals gs' pending_store)
       /\ goal_tools.status_message "someday" walk_goal
          <> goal_tools.not_found 1
       /\ goal_tools.status_message "someday" walk_goal
          <> "❌ No goals found."
       /\ List.find (goal_tools.is_goal 1 (user_id alice_later)) gs' = Some g'
       /\ g_status g' = "someday"
       /\ g_approved g' = g_approved walk_goal
       /\ g_updated_at g' = Some (isoformat (now alice_later)).
Proof.
  split; [reflexivity|]. split; [reflexivity|].
  exact (update_goal_status_overwrites 1 "someday" alice_later pending_store
           [walk_goal] walk_goal eq_refl eq_refl).
Defined.

(** C9.  When no goal with the given id belongs to the calling user,
    [approve_goal] and [update_goal_status] each return a message and leave
    the store as it was: "❌ Goal ID {id} not found." when the goals
    collection exists, and the no-goals message of the tool when it does
    not.  Both are total functions into a string and a store: no exception
    is raised. *)
Theorem goal_not_found_is_a_message_and_changes_nothing :
  forall (goal_id : Z) (status : string) (tc : ToolContext) (st : State),
    (forall g, In g (goals_list st) ->
               ~ (g_id g = goal_id /\ g_user_id g = user_id tc)) ->
    goal_tools.approve_goal goal_id tc st
    = (match goals st with
       | Some _ => "❌ Goal ID " ++ str_of_Z goal_id ++ " not found."
       | None => "❌ No goals found to approve."
       end, st)
    /\ goal_tools.update_goal_status goal_id status tc st
       = (match goals st with
          | Some _ => "❌ Goal ID " ++ str_of_Z goal_id ++ " not found."
          | None => "❌ No goals found."
          end, st).
Proof.
  intros goal_id status tc st Hnone.
  unfold goal_tools.approve_goal, goal_tools.update_goal_status, goals_list in *.
  destruct (goals st) as [gs|]; [|split; reflexivity].
  simpl in Hnone. apply find_is_goal_none in Hnone.
  rewrite !update_first_miss by exact Hnone. split; reflexivity.
Qed.

Lemma goal_not_found_witness :
  (forall g, In g (goals_list pending_store) ->
             ~ (g_id g = 1%Z /\ g_user_id g = user_id bob))
  /\ goal_tools.approve_goal 1 bob pending_store
     = ("❌ Goal ID 1 not found.", pending_store)
  /\ goal_tools.update_goal_status 1 "completed" bob pending_store
     = ("❌ Goal ID 1 not found.", pending_store).
Proof.
  assert (H : forall g, In g (goals_list pending_store) ->
                        ~ (g_id g = 1%Z /\ g_user_id g = user_id bob)).
  { intros g [<-|[]] [_ Hu]. discriminate Hu. }
  split; [exact H|].
  exact (goal_not_found_is_a_message_and_changes_nothing 1 "completed" bob
           pending_store H).
Defined.

(** ** Text: on ASCII text lowering and stripping commute *)

Section Text.

Lemma is_space_lower_char c : is_space (lower_char c) = is_space c.
Proof. destruct c as [[] [] [] [] [] [] [] []]; reflexivity. Qed.

Lemma ascii_lower_lstrip s :
  ascii_lower (ascii_lstrip s) = ascii_lstrip (ascii_lower s).
Proof.
  induction s as [|c s IH]; simpl; [reflexivity|].
  rewrite is_space_lower_char. destruct (is_space c); [exact IH|reflexivity].
Qed.

Lemma ascii_lower_rstrip s :
  ascii_lower (ascii_rstrip s) = ascii_rstrip (ascii_lower s).
Proof.
  induction s as [|c s IH]; simpl; [reflexivity|].
  rewrite <- IH, is_space_lower_char.
  destruct (ascii_rstrip s) as [|d r]; simpl; [|reflexivity].
  destruct (is_space c); reflexivity.
Qed.

(** [s.strip().lower() == s.lower().strip()], for the ASCII methods. *)
Lemma ascii_lower_strip s :
  ascii_lower (ascii_strip s) = ascii_strip (ascii_lower s).
Proof.
  unfold ascii_strip. now rewrite ascii_lower_rstrip, ascii_lower_lstrip.
Qed.

End Text.

Section Memory.

Implicit Types (memory : gmap string pyval) (st : State).

Lemma user_memories_ensure uid st :
  exists ums,
    user_memories (memory_tools.ensure_memory uid st) = Some ums
    /\ ums !! uid = Some (memory_tools.memory_of uid
                            (memory_tools.ensure_memory uid st)).
Proof.
  unfold memory_tools.ensure_memory, memory_tools.memory_of.
  destruct (user_memories st) as [ums|] eqn:E; simpl; rewrite ?E; simpl.
  - destruct (ums !! uid) as [m|] eqn:Eu; simpl.
    + exists ums. rewrite E. simpl. now rewrite Eu.
    + eexists. split; [reflexivity|]. simpl. now rewrite lookup_insert_eq.
  - rewrite lookup_empty. eexists. split; [reflexivity|].
    simpl. now rewrite lookup_insert_eq.
Qed.

Lemma memory_of_set_memory uid memory st :
  memory_tools.memory_of uid (memory_tools.set_memory uid memory st) = memory.
Proof.
  unfold memory_tools.memory_of, memory_tools.set_memory. simpl.
  now rewrite lookup_insert_eq.
Qed.

Lemma ensure_memory_set_memory uid memory st :
  memory_tools.ensure_memory uid (memory_tools.set_memory uid memory st)
  = memory_tools.set_memory uid memory st.
Proof.
  unfold memory_tools.ensure_memory, memory_tools.set_memory. simpl.
  now rewrite lookup_insert_eq.
Qed.

Lemma set_memory_set_memory uid m1 m2 st :
  memory_tools.set_memory uid m2 (memory_tools.set_memory uid m1 st)
  = memory_tools.set_memory uid m2 st.
Proof.
  unfold memory_tools.set_memory, set_user_memories. simpl.
  now rewrite insert_insert_eq.
Qed.

(** A key outside the four the ladder knows falls through to
    [memory[key] = value]. *)
Lemma route_plain key value memory :
  key <> "name" -> key <> "interests" -> key <> "preferences" ->
  key <> "history" ->
  memory_tools.route key value memory = Ok (<[key := VStr value]> memory).
Proof.
  intros H1 H2 H3 H4. unfold memory_tools.route.
  apply String.eqb_neq in H1, H2, H3, H4. now rewrite H1, H2, H3, H4.
Qed.

Lemma save_to_memory_plain key value tc st :
  key <> "name" -> key <> "interests" -> key <> "preferences" ->
  key <> "history" ->
  memory_tools.save_to_memory key value tc st
  = (Ok ("✓ Saved " ++ key ++ " to memory"),
     memory_tools.set_memory (user_id tc)
       (<[key := VStr value]>
          (memory_tools.memory_of (user_id tc)
             (memory_tools.ensure_memory (user_id tc) st)))
       (memory_tools.ensure_memory (user_id tc) st)).
Proof.
  intros H1 H2 H3 H4. unfold memory_tools.save_to_memory.
  now rewrite route_plain.
Qed.

(** A second plain write of the same key wipes the first. *)
Lemma save_to_memory_plain_twice key v1 v2 tc st :
  key <> "name" -> key <> "interests" -> key <> "preferences" ->
  key <> "history" ->
  snd (memory_tools.save_to_memory key v2 tc
         (snd (memory_tools.save_to_memory key v1 tc st)))
  = snd (memory_tools.save_to_memory key v2 tc st).
Proof.
  intros H1 H2 H3 H4. rewrite !save_to_memory_plain by assumption. simpl.
  rewrite ensure_memory_set_memory, memory_of_set_memory,
    set_memory_set_memory.
  now rewrite insert_insert_eq.
Qed.

End Memory.

(** ** Therapeutic patterns *)

Section Patterns.

Implicit Types (memory : gmap string pyval) (st : State).

Lemma both_lists_append helpful entry bucket hs us :
  both_lists bucket = Some (hs, us) ->
  exists bucket',
    memory_tools.bucket_append (memory_tools.response_field helpful) entry
      bucket = Ok bucket'
    /\ both_lists bucket' = Some (add_entry helpful entry (hs, us)).
Proof.
  unfold both_lists, responses. destruct bucket as [s|l|b]; try discriminate.
  destruct (b !! "helpful_responses") as [[?|hl|?]|] eqn:Eh; try discriminate.
  destruct (b !! "unhelpful_responses") as [[?|ul|?]|] eqn:Eu;
    try discriminate.
  intros [= <- <-]. destruct helpful; simpl.
  - rewrite Eh. eexists. split; [reflexivity|].
    unfold both_lists, responses.
    rewrite lookup_insert_eq, lookup_insert_ne by discriminate.
    now rewrite Eu.
  - rewrite Eu. eexists. split; [reflexivity|].
    unfold both_lists, responses.
    rewrite lookup_insert_eq, lookup_insert_ne by discriminate.
    now rewrite Eh.
Qed.

Lemma both_lists_empty_bucket :
  both_lists memory_tools.empty_bucket = Some ([], []).
Proof. reflexivity. Qed.

Lemma triggers_of_written memory patterns t :
  triggers_of
    (<["therapeutic_patterns" := VDict (<["triggers" := VDict t]> patterns)]>
       memory)
  = Some t.
Proof. unfold triggers_of. now rewrite !lookup_insert_eq. Qed.

(** On a record of the right shape the call appends its entry to the
    bucket of [k], which it creates when it is missing. *)
Lemma record_pattern_appends k response stamp helpful memory hs us :
  lists_before k memory = Some (hs, us) ->
  exists memory',
    memory_tools.record_pattern k response stamp helpful memory
    = (Ok tt, memory')
    /\ lists_at k memory'
       = Some (add_entry helpful
                 (memory_tools.pattern_entry response stamp) (hs, us))
    /\ lists_before k memory' = lists_at k memory'.
Proof.
  intros H. unfold lists_before, triggers_of in H.
  destruct (memory !! "therapeutic_patterns") as [[?|?|patterns]|] eqn:Ep;
    try discriminate.
  destruct (patterns !! "triggers") as [[?|?|t]|] eqn:Et; try discriminate.
  unfold memory_tools.record_pattern. rewrite Ep, Et. simpl.
  destruct (t !! k) as [bucket|] eqn:Ek.
  - rewrite Ek.
    destruct (both_lists_append helpful
                (memory_tools.pattern_entry response stamp) bucket hs us H)
      as (bucket' & -> & Hb).
    eexists. split; [reflexivity|].
    unfold lists_at, lists_before. rewrite triggers_of_written.
    now rewrite lookup_insert_eq.
  - injection H as <- <-. rewrite lookup_insert_eq.
    destruct (both_lists_append helpful
                (memory_tools.pattern_entry response stamp)
                memory_tools.empty_bucket [] [] both_lists_empty_bucket)
      as (bucket' & -> & Hb).
    eexists. split; [reflexivity|].
    unfold lists_at, lists_before. rewrite triggers_of_written.
    now rewrite lookup_insert_eq.
Qed.

Lemma save_therapeutic_pattern_appends {py : StrMethods} trigger response
    helpful tc st hs us :
  lists_before (memory_tools.trigger_key trigger)
    (memory_tools.memory_of (user_id tc)
       (memory_tools.ensure_memory (user_id tc) st)) = Some (hs, us) ->
  exists st',
    memory_tools.save_therapeutic_pattern trigger response helpful tc st
    = (Ok (memory_tools.pattern_message trigger helpful), st')
    /\ memory_tools.ensure_memory (user_id tc) st' = st'
    /\ lists_at (memory_tools.trigger_key trigger)
         (memory_tools.memory_of (user_id tc) st')
       = Some (add_entry helpful
                 (memory_tools.pattern_entry response (isoformat (now tc)))
                 (hs, us))
    /\ lists_before (memory_tools.trigger_key trigger)
         (memory_tools.memory_of (user_id tc) st')
       = lists_at (memory_tools.trigger_key trigger)
           (memory_tools.memory_of (user_id tc) st').
Proof.
  intros H.
  destruct (record_pattern_appends _ response (isoformat (now tc)) helpful
              _ hs us H) as (memory' & Hrec & Hat & Hbefore).
  unfold memory_tools.save_therapeutic_pattern. rewrite Hrec.
  eexists. split; [reflexivity|].
  rewrite ensure_memory_set_memory, memory_of_set_memory. auto.
Qed.

End Patterns.

(** Two calls whose triggers have the same key append to the bucket of
    that key. *)
Lemma same_key_same_bucket {py : StrMethods}
    (t1 r1 : string) (h1 : bool) (t2 r2 : string) (h2 : bool)
    (tc1 tc2 : ToolContext) (st : State) (hs us : list pyval) :
  user_id tc1 = user_id tc2 ->
  memory_tools.trigger_key t2 = memory_tools.trigger_key t1 ->
  lists_before (memory_tools.trigger_key t1)
    (memory_tools.memory_of (user_id tc1)
       (memory_tools.ensure_memory (user_id tc1) st)) = Some (hs, us) ->
  let k := memory_tools.trigger_key t1 in
  let e1 := memory_tools.pattern_entry r1 (isoformat (now tc1)) in
  let e2 := memory_tools.pattern_entry r2 (isoformat (now tc2)) in
  exists st1 st2,
    memory_tools.save_therapeutic_pattern t1 r1 h1 tc1 st
    = (Ok (memory_tools.pattern_message t1 h1), st1)
    /\ memory_tools.save_therapeutic_pattern t2 r2 h2 tc2 st1
       = (Ok (memory_tools.pattern_message t2 h2), st2)
    /\ lists_at k (memory_tools.memory_of (user_id tc1) st1)
       = Some (add_entry h1 e1 (hs, us))
    /\ lists_at k (memory_tools.memory_of (user_id tc1) st2)
       = Some (add_entry h2 e2 (add_entry h1 e1 (hs, us))).
Proof.
  intros Hu Hk2 Hshape k e1 e2.
  destruct (save_therapeutic_pattern_appends t1 r1 h1 tc1 st hs us Hshape)
    as (st1 & Hcall1 & Hens1 & Hat1 & Hbefore1).
  assert (Hshape2 :
            lists_before (memory_tools.trigger_key t2)
              (memory_tools.memory_of (user_id tc2)
                 (memory_tools.ensure_memory (user_id tc2) st1))
            = Some (add_entry h1 e1 (hs, us))).
  { rewrite Hk2, <- Hu, Hens1, Hbefore1. exact Hat1. }
  destruct (add_entry h1 e1 (hs, us)) as [hs1 us1] eqn:E1.
  destruct (save_therapeutic_pattern_appends t2 r2 h2 tc2 st1 hs1 us1 Hshape2)
    as (st2 & Hcall2 & _ & Hat2 & _).
  rewrite Hk2, <- Hu in Hat2.
  exists st1, st2. repeat split; try assumption.
  unfold e1 in E1. fold k in Hat1. now rewrite Hat1, E1.
Qed.

(** C4.  Trigger keys are the lowered, trimmed trigger.  [lower] and
    [strip] are the interpreter's [str.lower] and [str.strip], for which
    trimming then lowering gives what lowering then trimming gives (stated
    as the first hypothesis; the code applies them in the second order).
    When two triggers have the same lowered trimmed form, two calls of
    [save_therapeutic_pattern] by the same user, on a record whose
    [therapeutic_patterns.triggers] mapping has the documented shape
    ([lists_before] reads the bucket's two lists, empty when the bucket is
    still to be created), both return their confirmation and both append
    their entry, the response with the time of the call, to the bucket
    stored under that one key. *)
Theorem equal_trigger_keys_share_a_bucket :
  forall (py : StrMethods) (t1 r1 : string) (h1 : bool) (t2 r2 : string)
         (h2 : bool) (tc1 tc2 : ToolContext) (st : State)
         (hs us : list pyval),
    (forall s, lower (strip s) = strip (lower s)) ->
    user_id tc1 = user_id tc2 ->
    lower (strip t1) = lower (strip t2) ->
    lists_before (lower (strip t1))
      (memory_tools.memory_of (user_id tc1)
         (memory_tools.ensure_memory (user_id tc1) st)) = Some (hs, us) ->
    let k := lower (strip t1) in
    let e1 :=
      VDict {[ "response" := VStr r1;
               "timestamp" := VStr (isoformat (now tc1)) ]} in
    let e2 :=
      VDict {[ "response" := VStr r2;
               "timestamp" := VStr (isoformat (now tc2)) ]} in
    let reply (t : string) (h : bool) :=
      if h then "✓ Marked as helpful for '" ++ t ++ "'"
      else "✓ Marked as unhelpful for '" ++ t
             ++ "' - will try different approach next time" in
    exists st1 st2,
      memory_tools.save_therapeutic_pattern t1 r1 h1 tc1 st
      = (Ok (reply t1 h1), st1)
      /\ memory_tools.save_therapeutic_pattern t2 r2 h2 tc2 st1
         = (Ok (reply t2 h2), st2)
      /\ memory_tools.trigger_key t1 = k
      /\ memory_tools.trigger_key t2 = k
      /\ lists_at k (memory_tools.memory_of (user_id tc1) st1)
         = Some (add_entry h1 e1 (hs, us))
      /\ lists_at k (memory_tools.memory_of (user_id tc1) st2)
         = Some (add_entry h2 e2 (add_entry h1 e1 (hs, us))).
Proof.
  intros py t1 r1 h1 t2 r2 h2 tc1 tc2 st hs us Hcomm Hu Hk Hshape
    k e1 e2 reply.
  assert (Hk1 : memory_tools.trigger_key t1 = k).
  { unfold memory_tools.trigger_key, k. now rewrite Hcomm. }
  assert (Hk2 : memory_tools.trigger_key t2 = k).
  { unfold memory_tools.trigger_key, k. now rewrite Hk, Hcomm. }
  fold k in Hshape. rewrite <- Hk1 in Hshape.
  destruct (same_key_same_bucket t1 r1 h1 t2 r2 h2 tc1 tc2 st hs us Hu
              (eq_trans Hk2 (eq_sym Hk1)) Hshape)
    as (st1 & st2 & Hcall1 & Hcall2 & Hat1 & Hat2).
  rewrite Hk1 in Hat1, Hat2.
  exists st1, st2.
  split; [exact Hcall1|]. split; [exact Hcall2|].
  split; [exact Hk1|]. split; [exact Hk2|].
  split; [exact Hat1|exact Hat2].
Qed.

Lemma equal_trigger_keys_share_a_bucket_witness :
  (forall s, ascii_lower (ascii_strip s) = ascii_strip (ascii_lower s))
  /\ user_id alice = user_id alice_later
  /\ ascii_lower (ascii_strip "Stressed")
     = ascii_lower (ascii_strip " stressed ")
  /\ lists_before (ascii_lower (ascii_strip "Stressed"))
       (memory_tools.memory_of (user_id alice)
          (memory_tools.ensure_memory (user_id alice) empty_state))
     = Some ([], [])
  /\ exists st1 st2,
       memory_tools.save_therapeutic_pattern (py := ascii_methods)
         "Stressed" "4-7-8 breathing" true alice empty_state
       = (Ok "✓ Marked as helpful for 'Stressed'", st1)
       /\ memory_tools.save_therapeutic_pattern (py := ascii_methods)
            " stressed " "quick walk" false alice_later st1
          = (Ok "✓ Marked as unhelpful for ' stressed ' - will try different approach next time",
             st2)
       /\ memory_tools.trigger_key (py := ascii_methods) "Stressed"
          = "stressed"
       /\ memory_tools.trigger_key (py := ascii_methods) " stressed "
          = "stressed"
       /\ lists_at "stressed" (memory_tools.memory_of "alice" st1)
          = Some ([VDict {[ "response" := VStr "4-7-8 breathing";
                            "timestamp" := VStr "2025-12-01T10:30:00" ]}],
                  [])
       /\ lists_at "stressed" (memory_tools.memory_of "alice" st2)
          = Some ([VDict {[ "response" := VStr "4-7-8 breathing";
                            "timestamp" := VStr "2025-12-01T10:30:00" ]}],
                  [VDict {[ "response" := VStr "quick walk";
                            "timestamp" := VStr "2025-12-01T12:00:00" ]}]).
Proof.
  assert (H : lists_before (ascii_lower (ascii_strip "Stressed"))
                (memory_tools.memory_of (user_id alice)
                   (memory_tools.ensure_memory (user_id alice) empty_state))
              = Some ([], [])) by (vm_compute; reflexivity).
  split; [exact ascii_lower_strip|].
  split; [reflexivity|]. split; [reflexivity|]. split; [exact H|].
  exact (equal_trigger_keys_share_a_bucket ascii_methods "Stressed"
           "4-7-8 breathing" true " stressed " "quick walk" false alice
           alice_later empty_state [] [] ascii_lower_strip eq_refl eq_refl H).
Defined.

(** ** Plain keys of [save_to_memory] *)

(** C10.  For a key outside name, interests, preferences and history,
    [save_to_memory] stores the raw string as the top-level field of that
    name in the user's record and touches no other field.  With the key
    personal_details or therapeutic_patterns the structured sub-mapping is
    replaced by the flat string, after which [save_to_memory] with key name
    and [save_therapeutic_pattern] raise; a second call with the same key
    leaves the store a single call with the second value would have left:
    the first value is overwritten. *)
Theorem save_to_memory_plain_key_is_a_top_level_field :
  forall (py : StrMethods) (key value value2 : string) (tc : ToolContext)
         (st : State),
    key <> "name" -> key <> "interests" -> key <> "preferences" ->
    key <> "history" ->
    let st0 := memory_tools.ensure_memory (user_id tc) st in
    let memory := memory_tools.memory_of (user_id tc) st0 in
    let r := memory_tools.save_to_memory key value tc st in
    r = (Ok ("✓ Saved " ++ key ++ " to memory"),
         memory_tools.set_memory (user_id tc) (<[key := VStr value]> memory) st0)
    /\ memory_tools.memory_of (user_id tc) (snd r) !! key = Some (VStr value)
    /\ delete key (memory_tools.memory_of (user_id tc) (snd r))
       = delete key memory
    /\ memory_tools.memory_of (user_id tc)
         (snd (memory_tools.save_to_memory "personal_details" value tc st))
       !! "personal_details" = Some (VStr value)
    /\ fst (memory_tools.save_to_memory "name" value2 tc
              (snd (memory_tools.save_to_memory "personal_details" value tc st)))
       = Raise TypeError
    /\ memory_tools.memory_of (user_id tc)
         (snd (memory_tools.save_to_memory "therapeutic_patterns" value tc st))
       !! "therapeutic_patterns" = Some (VStr value)
    /\ fst (memory_tools.save_therapeutic_pattern value2 value2 true tc
              (snd (memory_tools.save_to_memory "therapeutic_patterns" value
                      tc st)))
       = Raise TypeError
    /\ snd (memory_tools.save_to_memory key value2 tc (snd r))
       = snd (memory_tools.save_to_memory key value2 tc st)
    /\ memory_tools.memory_of (user_id tc)
         (snd (memory_tools.save_to_memory key value2 tc (snd r))) !! key
       = Some (VStr value2).
Proof.
  intros py key value value2 tc st H1 H2 H3 H4 st0 memory r.
  assert (Hr : r = (Ok ("✓ Saved " ++ key ++ " to memory"),
                    memory_tools.set_memory (user_id tc)
                      (<[key := VStr value]> memory) st0)).
  { unfold r. now apply save_to_memory_plain. }
  assert (Htwice : snd (memory_tools.save_to_memory key value2 tc (snd r))
                   = snd (memory_tools.save_to_memory key value2 tc st)).
  { unfold r. now apply save_to_memory_plain_twice. }
  repeat split.
  - exact Hr.
  - rewrite Hr. simpl. now rewrite memory_of_set_memory, lookup_insert_eq.
  - rewrite Hr. simpl. now rewrite memory_of_set_memory, delete_insert_eq.
  - rewrite save_to_memory_plain by discriminate. simpl.
    now rewrite memory_of_set_memory, lookup_insert_eq.
  - rewrite (save_to_memory_plain "personal_details") by discriminate. simpl.
    unfold memory_tools.save_to_memory.
    rewrite ensure_memory_set_memory, memory_of_set_memory.
    unfold memory_tools.route, memory_tools.set_item_in. simpl.
    now rewrite lookup_insert_eq.
  - rewrite save_to_memory_plain by discriminate. simpl.
    now rewrite memory_of_set_memory, lookup_insert_eq.
  - rewrite (save_to_memory_plain "therapeutic_patterns") by discriminate.
    simpl. unfold memory_tools.save_therapeutic_pattern.
    rewrite ensure_memory_set_memory, memory_of_set_memory.
    unfold memory_tools.record_pattern. now rewrite lookup_insert_eq.
  - exact Htwice.
  - rewrite Htwice, save_to_memory_plain by assumption. simpl.
    now rewrite memory_of_set_memory, lookup_insert_eq.
Qed.

Lemma save_to_memory_plain_key_witness :
  "journal_entry" <> "name" /\ "journal_entry" <> "interests"
  /\ "journal_entry" <> "preferences" /\ "journal_entry" <> "history"
  /\ memory_tools.save_to_memory "journal_entry" "first" alice empty_state
     = (Ok "✓ Saved journal_entry to memory",
        memory_tools.set_memory "alice"
          (<["journal_entry" := VStr "first"]> memory_tools.default_memory)
          (memory_tools.ensure_memory "alice" empty_state)).
Proof.
  assert (H1 : "journal_entry" <> "name") by discriminate.
  assert (H2 : "journal_entry" <> "interests") by discriminate.
  assert (H3 : "journal_entry" <> "preferences") by discriminate.
  assert (H4 : "journal_entry" <> "history") by discriminate.
  repeat (split; [assumption|]).
  exact (proj1 (save_to_memory_plain_key_is_a_top_level_field ascii_methods
                  "journal_entry" "first" "second" alice empty_state
                  H1 H2 H3 H4)).
Defined.

(** ** The journal entry of the insight generator *)

(** C5, as stated, fails: on a fresh store the call
    [save_to_memory("journal_entry", "first")] leaves the user's history
    empty, and after a second entry the record holds the second one only. *)
Lemma journal_entry_is_not_appended_to_history :
  let st1 :=
    snd (memory_tools.save_to_memory "journal_entry" "first" alice
           empty_state) in
  let st2 :=
    snd (memory_tools.save_to_memory "journal_entry" "second" alice_later
           st1) in
  memory_tools.memory_of "alice" st1 !! "history" = Some (VList [])
  /\ memory_tools.memory_of "alice" st1 !! "history"
     <> Some (VList [VStr "first"])
  /\ memory_tools.memory_of "alice" st2 !! "history" = Some (VList [])
  /\ memory_tools.memory_of "alice" st2 !! "journal_entry"
     = Some (VStr "second").
Proof. vm_compute. repeat split; discriminate. Qed.

(** C5, amended.  The insight generator, third and last stage of the
    journal pipeline, has [save_to_memory] as its only tool.  A call
    [save_to_memory("journal_entry", value)] returns its confirmation and
    stores the value as the top-level field journal_entry of the user's
    record; the history sequence and every other field stay as they were,
    and a later journal entry replaces the stored one. *)
Theorem journal_entry_is_stored_as_a_field :
  forall (value value2 : string) (tc : ToolContext) (st : State),
    let memory :=
      memory_tools.memory_of (user_id tc)
        (memory_tools.ensure_memory (user_id tc) st) in
    let r := memory_tools.save_to_memory "journal_entry" value tc st in
    let memory' := memory_tools.memory_of (user_id tc) (snd r) in
    agents.agent_sub_agents agents.journal_analysis_flow
    = [agents.emotion_extractor_agent; agents.pattern_analyzer_agent;
       agents.insight_generator_agent]
    /\ agents.agent_tools agents.insight_generator_agent
       = [agents.fn_save_to_memory]
    /\ fst r = Ok "✓ Saved journal_entry to memory"
    /\ memory' !! "journal_entry" = Some (VStr value)
    /\ memory' !! "history" = memory !! "history"
    /\ delete "journal_entry" memory' = delete "journal_entry" memory
    /\ memory_tools.memory_of (user_id tc)
         (snd (memory_tools.save_to_memory "journal_entry" value2 tc (snd r)))
       = <["journal_entry" := VStr value2]> memory.
Proof.
  intros value value2 tc st memory r memory'.
  assert (Hr : r = (Ok "✓ Saved journal_entry to memory",
                    memory_tools.set_memory (user_id tc)
                      (<["journal_entry" := VStr value]> memory)
                      (memory_tools.ensure_memory (user_id tc) st))).
  { unfold r. now rewrite save_to_memory_plain by discriminate. }
  assert (Hm : memory' = <["journal_entry" := VStr value]> memory).
  { unfold memory'. rewrite Hr. simpl. apply memory_of_set_memory. }
  split; [reflexivity|]. split; [reflexivity|].
  split; [now rewrite Hr|].
  repeat split.
  - rewrite Hm. apply lookup_insert_eq.
  - rewrite Hm. now rewrite lookup_insert_ne by discriminate.
  - rewrite Hm. apply delete_insert_eq.
  - unfold r. rewrite save_to_memory_plain_twice by discriminate.
    rewrite save_to_memory_plain by discriminate. simpl.
    apply memory_of_set_memory.
Qed.

(** ** What a tool hands back *)

(** C6, as stated, fails: [load_memory] returns a dictionary. *)
Lemma load_memory_does_not_return_a_string :
  fst (invoke (py := ascii_methods) call_load_memory alice empty_state)
  = Ok (VDict {[ "user_id" := VStr "alice";
                 "memory" := VDict memory_tools.default_memory ]})
  /\ ~ exists s,
        fst (invoke (py := ascii_methods) call_load_memory alice empty_state)
        = Ok (VStr s).
Proof.
  split; [reflexivity|]. intros [s Hs]. simpl in Hs. discriminate Hs.
Qed.

(** C6, amended.  [load_memory] returns the dictionary with the fields
    user_id and memory.  Each of the other thirteen tool functions hands
    back a string: the task, reminder, goal and date tools always return
    one, and the two memory writers return one unless they raise. *)
Theorem tools_other_than_load_memory_return_strings :
  forall (py : StrMethods) (c : tool_call) (tc : ToolContext) (st : State),
    match c with
    | call_load_memory =>
        fst (invoke c tc st)
        = Ok (VDict {[ "user_id" := VStr (user_id tc);
                       "memory" :=
                         VDict (memory_tools.memory_of (user_id tc)
                                  (memory_tools.ensure_memory (user_id tc) st))
                    ]})
    | call_save_to_memory _ _ | call_save_therapeutic_pattern _ _ _ =>
        (exists s, fst (invoke c tc st) = Ok (VStr s))
        \/ (exists e, fst (invoke c tc st) = Raise e)
    | _ => exists s, fst (invoke c tc st) = Ok (VStr s)
    end.
Proof.
  intros py c tc st.
  destruct c; simpl; try (eexists; reflexivity).
  - unfold may_return_str.
    destruct (fst (memory_tools.save_to_memory key value tc st)) as [s|e];
      [left|right]; eexists; reflexivity.
  - unfold may_return_str.
    destruct (fst (memory_tools.save_therapeutic_pattern trigger response
                     helpful tc st)) as [s|e];
      [left|right]; eexists; reflexivity.
Qed.

(** ** The agent topology *)

(** C7, as stated, fails: the journal pipeline is not a delegation target
    of the root agent. *)
Lemma journal_pipeline_is_not_a_root_sub_agent :
  ~ In agents.journal_analysis_flow (agents.agent_sub_agents agents.root_agent).
Proof. simpl. intros [H|[H|[H|[H|[]]]]]; discriminate H. Qed.

(** C7, amended.  The root agent holds [load_memory] and [save_to_memory]
    as its own tools and lists as delegation targets the four specialized
    agents: therapeutic support, task manager, goal refinement and search.
    The journal pipeline is configured, with its three stages in order, but
    it is not among the root's sub-agents and no agent below the root bears
    its name. *)
Theorem root_agent_configuration :
  agents.agent_tools agents.root_agent
  = [agents.fn_load_memory; agents.fn_save_to_memory]
  /\ agents.agent_sub_agents agents.root_agent
     = [agents.therapeutic_agent; agents.task_agent;
        agents.goal_refinement_agent; agents.search_agent]
  /\ map agents.agent_name (agents.agent_sub_agents agents.root_agent)
     = ["therapeutic_support"; "task_manager"; "goal_refinement";
        "search_specialist"]
  /\ agents.journal_analysis_flow
     = agents.SequentialAgent "journal_analyzer"
         [agents.emotion_extractor_agent; agents.pattern_analyzer_agent;
          agents.insight_generator_agent]
  /\ agents.agent_tree agents.root_agent
     = ["personal_assistant"; "therapeutic_support"; "task_manager";
        "goal_refinement"; "search_specialist"]
  /\ ~ In (agents.agent_name agents.journal_analysis_flow)
         (agents.agent_tree agents.root_agent).
Proof.
  repeat split. simpl.
  intros [H|[H|[H|[H|[H|[]]]]]]; discriminate H.
Qed.

(** ** The embedding at work *)

Example sample_trace_ids :
  map (fun t => (t_id t, t_user_id t))
    (tasks_list (run (py := ascii_methods) sample_trace empty_state))
  = [(1%Z, "alice"); (2%Z, "bob"); (3%Z, "alice")].
Proof. reflexivity. Qed.

Example sample_trace_listing :
  fst (task_tools.get_tasks alice
         (run (py := ascii_methods) sample_trace empty_state))
  = "You have 2 task(s):" ++ Py.nl
    ++ Py.nl ++ "• Buy groceries - Priority: medium"
    ++ Py.nl ++ "• Call dentist - Priority: low (due: 2025-12-02)".
Proof. reflexivity. Qed.

Example sample_trace_nothing_for_a_stranger :
  fst (task_tools.get_tasks {| user_id := "carol"; now := monday_noon |}
         (run (py := ascii_methods) sample_trace empty_state))
  = "You have no tasks.".
Proof. reflexivity. Qed.

Example trigger_key_normalizes :
  memory_tools.trigger_key (py := ascii_methods) ("  Stressed " ++ Py.nl)
  = "stressed".
Proof. reflexivity. Qed.

Example approve_on_a_fresh_store :
  goal_tools.approve_goal 1 alice empty_state
  = ("❌ No goals found to approve.", empty_state).
Proof. reflexivity. Qed.

Example unapproved_goal_can_be_completed :
  fst (goal_tools.update_goal_status 1 "completed" alice pending_store)
  = "🎉 Congratulations! Goal 'Morning Walk Routine' marked as completed!".
Proof. reflexivity. Qed.

Example history_key_accumulates :
  memory_tools.memory_of "alice"
    (snd (memory_tools.save_to_memory "history" "second" alice
            (snd (memory_tools.save_to_memory "history" "first" alice
                    empty_state))))
  !! "history"
  = Some (VList [VStr "first"; VStr "second"]).
Proof. vm_compute. reflexivity. Qed.

(** * Further properties *)

(** ** Reminders over a run *)

Section Reminders.

Implicit Types (trace : list (ToolContext * tool_call)) (st : State).

Lemma reminders_run {py : StrMethods} trace st :
  reminders_list (run trace st)
  = (reminders_list st ++ map snd (scheduled_reminders trace st))%list.
Proof.
  revert st. induction trace as [|[tc c] trace IH]; intros st.
  - simpl. now rewrite app_nil_r.
  - rewrite run_cons, IH, invoke_reminders. simpl scheduled_reminders.
    rewrite map_app, <- app_assoc. f_equal. f_equal.
    destruct c; reflexivity.
Qed.

Lemma scheduled_reminders_owner {py : StrMethods} trace st :
  Forall (fun p => r_user_id (snd p) = user_id (fst p))
    (scheduled_reminders trace st).
Proof.
  revert st. induction trace as [|[tc c] trace IH]; intros st; simpl.
  - constructor.
  - apply Forall_app. split; [|apply IH].
    destruct c; repeat constructor.
Qed.

Lemma user_reminders_of_pairs uid (ps : list (ToolContext * Reminder)) :
  Forall (fun p => r_user_id (snd p) = user_id (fst p)) ps ->
  task_tools.user_reminders uid (map snd ps)
  = map snd (List.filter (fun p => String.eqb (user_id (fst p)) uid) ps).
Proof.
  unfold task_tools.user_reminders.
  induction 1 as [|p ps Hp _ IH]; simpl; [reflexivity|].
  rewrite Hp. destruct (String.eqb (user_id (fst p)) uid); simpl;
    now rewrite IH.
Qed.

Lemma user_reminders_run {py : StrMethods} uid trace st :
  task_tools.user_reminders uid (reminders_list (run trace st))
  = (task_tools.user_reminders uid (reminders_list st)
       ++ scheduled_by uid trace st)%list.
Proof.
  rewrite reminders_run. unfold task_tools.user_reminders at 1.
  rewrite List.filter_app. f_equal.
  apply user_reminders_of_pairs, scheduled_reminders_owner.
Qed.

Lemma get_reminders_renders tc st :
  fst (task_tools.get_reminders tc st)
  = render_reminders
      (task_tools.user_reminders (user_id tc) (reminders_list st)).
Proof.
  unfold task_tools.get_reminders, reminders_list, render_reminders.
  destruct (reminders st) eqn:E; simpl; rewrite ?E; simpl;
    try destruct (task_tools.user_reminders _ _); reflexivity.
Qed.

Lemma get_all_items_renders {py : StrMethods} tc st :
  fst (task_tools.get_all_items tc st)
  = render_items
      (task_tools.user_tasks (user_id tc) (tasks_list st))
      (task_tools.user_reminders (user_id tc) (reminders_list st)).
Proof.
  unfold task_tools.get_all_items, tasks_list, reminders_list, render_items.
  destruct (tasks st) eqn:Et; destruct (reminders st) eqn:Er; simpl;
    rewrite ?Et, ?Er; simpl; rewrite ?Et, ?Er; simpl;
    try destruct (task_tools.user_tasks _ _);
    try destruct (task_tools.user_reminders _ _); reflexivity.
Qed.

Lemma render_reminders_text (l : list Reminder) :
  render_reminders l
  = match l with
    | [] => "You have no reminders scheduled."
    | _ =>
        "You have " ++ str_of_nat (length l) ++ " reminder(s):" ++ Py.nl
          ++ String.concat ""
               (map (fun r =>
                       Py.nl ++ "• " ++ r_title r ++ " - " ++ r_date r
                         ++ " at " ++ r_time r) l)
    end.
Proof.
  destruct l as [|r l]; [reflexivity|].
  unfold render_reminders. rewrite fold_left_concat.
  rewrite !str_app_assoc. reflexivity.
Qed.

Lemma scheduled_by_fields {py : StrMethods} uid trace st :
  map (fun r => (r_title r, r_date r, r_time r, r_created_at r))
    (scheduled_by uid trace st)
  = reminder_requests uid trace.
Proof.
  unfold scheduled_by, reminder_requests.
  revert st. induction trace as [|[tc c] trace IH]; intros st;
    [reflexivity|].
  cbn [scheduled_reminders List.flat_map fst snd].
  rewrite List.filter_app, !map_app, IH. f_equal.
  destruct c; try reflexivity.
  cbn [List.filter fst snd]. now destruct (String.eqb (user_id tc) uid).
Qed.

Lemma scheduled_by_owner {py : StrMethods} uid trace st :
  Forall (fun r => r_user_id r = uid) (scheduled_by uid trace st).
Proof.
  unfold scheduled_by. apply List.Forall_forall. intros r Hr.
  apply List.in_map_iff in Hr. destruct Hr as [p [<- Hp]].
  apply List.filter_In in Hp. destruct Hp as [Hin Heq].
  apply String.eqb_eq in Heq. rewrite <- Heq.
  pose proof (scheduled_reminders_owner trace st) as Hall.
  rewrite List.Forall_forall in Hall. now apply Hall.
Qed.

(** The text of the combined listing: both sections, each left out when
    empty, trimmed by [strip]. *)
Lemma render_items_text {py : StrMethods} (ts : list Task)
    (rs : list Reminder) :
  render_items ts rs
  = match ts, rs with
    | [], [] => "You have no tasks or reminders."
    | _, _ =>
        strip
          (match ts with
           | [] => ""
           | _ =>
               Py.nl ++ "📋 **Tasks** (" ++ str_of_nat (length ts) ++ "):"
                 ++ Py.nl
                 ++ String.concat ""
                      (map (fun t =>
                              Py.nl ++ "• " ++ t_title t ++ " - Priority: "
                                ++ t_priority t
                                ++ match t_due_date t with
                                   | EmptyString => ""
                                   | String _ _ =>
                                       " (due: " ++ t_due_date t ++ ")"
                                   end) ts)
           end
           ++ match rs with
              | [] => ""
              | _ =>
                  Py.nl ++ Py.nl ++ "📅 **Reminders** ("
                    ++ str_of_nat (length rs) ++ "):" ++ Py.nl
                    ++ String.concat ""
                         (map (fun r =>
                                 Py.nl ++ "• " ++ r_title r ++ " - "
                                   ++ r_date r ++ " at " ++ r_time r) rs)
              end)
    end.
Proof.
  assert (Hline : forall l : list Task,
             map task_tools.task_line l
             = map (fun t =>
                      Py.nl ++ "• " ++ t_title t ++ " - Priority: "
                        ++ t_priority t
                        ++ match t_due_date t with
                           | EmptyString => ""
                           | String _ _ => " (due: " ++ t_due_date t ++ ")"
                           end) l).
  { intros l. apply map_ext. intros x. unfold task_tools.task_line.
    now destruct (t_due_date x). }
  unfold render_items.
  destruct ts as [|t ts]; destruct rs as [|r rs]; [reflexivity| | |].
  - f_equal. rewrite fold_left_concat, !str_app_nil_l.
    rewrite !str_app_assoc. reflexivity.
  - f_equal. rewrite fold_left_concat, !str_app_nil_l, Hline.
    rewrite !str_app_assoc, str_app_nil_r. reflexivity.
  - f_equal. rewrite !fold_left_concat, !str_app_nil_l, Hline.
    rewrite !str_app_assoc. reflexivity.
Qed.

End Reminders.

(** X1.  After any run of tool calls on a fresh store, [get_reminders] for
    a user selects exactly the reminders that user's [schedule_reminder]
    calls appended, in call order: each carries the title, date and time
    that were asked for and the time of its call, and belongs to the user.
    The text returned is "You have no reminders scheduled." when the user
    scheduled none, and otherwise the count followed by one line per
    reminder, title, date and time, in that order. *)
Theorem get_reminders_returns_own_reminders_in_order :
  forall (py : StrMethods) (trace : list (ToolContext * tool_call))
         (tc : ToolContext),
    let st := run trace empty_state in
    let mine := task_tools.user_reminders (user_id tc) (reminders_list st) in
    let asked := reminder_requests (user_id tc) trace in
    map (fun r => (r_title r, r_date r, r_time r, r_created_at r)) mine
    = asked
    /\ fst (task_tools.get_reminders tc st)
       = match asked with
         | [] => "You have no reminders scheduled."
         | _ =>
             "You have " ++ str_of_nat (length asked) ++ " reminder(s):"
               ++ Py.nl
               ++ String.concat ""
                    (map (fun '(title, date, time, _) =>
                            Py.nl ++ "• " ++ title ++ " - " ++ date ++ " at "
                              ++ time) asked)
         end
    /\ Forall (fun r => r_user_id r = user_id tc) mine.
Proof.
  intros py trace tc st mine asked.
  assert (Hsel : mine = scheduled_by (user_id tc) trace empty_state).
  { unfold mine, st. now rewrite user_reminders_run. }
  assert (Hasked : map (fun r => (r_title r, r_date r, r_time r,
                                  r_created_at r)) mine = asked).
  { rewrite Hsel. apply scheduled_by_fields. }
  split; [exact Hasked|]. split.
  - rewrite get_reminders_renders. fold mine.
    rewrite render_reminders_text, <- Hasked, length_map, map_map.
    destruct mine as [|r l]; reflexivity.
  - rewrite Hsel. apply scheduled_by_owner.
Qed.

(** X2.  After any run on a fresh store, [get_all_items] answers from the
    tasks the user created and the reminders the user scheduled, in call
    order.  With neither it answers "You have no tasks or reminders.";
    otherwise the answer is, trimmed by [str.strip], the tasks section (a
    header with the count, then one line per task with title, priority and
    due date) followed by the reminders section (a header with the count,
    then one line per reminder with title, date and time), a section being
    left out when the user has nothing in it. *)
Theorem get_all_items_shows_own_tasks_and_reminders :
  forall (py : StrMethods) (trace : list (ToolContext * tool_call))
         (tc : ToolContext),
    let st := run trace empty_state in
    let my_tasks := task_requests (user_id tc) trace in
    let my_reminders := reminder_requests (user_id tc) trace in
    fst (task_tools.get_all_items tc st)
    = match my_tasks, my_reminders with
      | [], [] => "You have no tasks or reminders."
      | _, _ =>
          strip
            (match my_tasks with
             | [] => ""
             | _ =>
                 Py.nl ++ "📋 **Tasks** (" ++ str_of_nat (length my_tasks)
                   ++ "):" ++ Py.nl
                   ++ String.concat ""
                        (map (fun '(title, due_date, priority, _) =>
                                Py.nl ++ "• " ++ title ++ " - Priority: "
                                  ++ priority
                                  ++ match due_date with
                                     | EmptyString => ""
                                     | String _ _ =>
                                         " (due: " ++ due_date ++ ")"
                                     end) my_tasks)
             end
             ++ match my_reminders with
                | [] => ""
                | _ =>
                    Py.nl ++ Py.nl ++ "📅 **Reminders** ("
                      ++ str_of_nat (length my_reminders) ++ "):" ++ Py.nl
                      ++ String.concat ""
                           (map (fun '(title, date, time, _) =>
                                   Py.nl ++ "• " ++ title ++ " - " ++ date
                                     ++ " at " ++ time) my_reminders)
                end)
      end.
Proof.
  intros py trace tc st my_tasks my_reminders.
  unfold st. rewrite get_all_items_renders, user_tasks_run, user_reminders_run.
  cbn [tasks_list reminders_list empty_state tasks reminders default
       task_tools.user_tasks task_tools.user_reminders List.filter app].
  rewrite render_items_text.
  unfold my_tasks, my_reminders.
  rewrite <- (created_by_fields (user_id tc) trace empty_state).
  rewrite <- (scheduled_by_fields (user_id tc) trace empty_state).
  rewrite !length_map, !map_map.
  destruct (created_by (user_id tc) trace empty_state) as [|t ts];
    destruct (scheduled_by (user_id tc) trace empty_state) as [|r rs];
    reflexivity.
Qed.

(** ** Goals over a run *)

Section GoalRuns.

Implicit Types (trace : list (ToolContext * tool_call)) (st : State).

Lemma goals_set_memory uid memory st :
  goals (memory_tools.set_memory uid memory st) = goals st.
Proof. reflexivity. Qed.

(** Every call leaves the goals it finds, but for the three goal writers. *)
Lemma invoke_goals {py : StrMethods} c tc st :
  goals_list (snd (invoke c tc st)) = goals_after c tc (goals_list st).
Proof.
  unfold goals_list.
  destruct c; simpl;
    unfold may_return_str, memory_tools.save_to_memory,
      memory_tools.save_therapeutic_pattern, task_tools.get_tasks,
      task_tools.get_reminders, task_tools.get_all_items,
      goal_tools.create_goal_with_routine, goal_tools.approve_goal,
      goal_tools.update_goal_status, goal_tools.get_goal,
      goal_tools.list_goals; simpl.
  - now rewrite goals_ensure_memory.
  - destruct (memory_tools.route _ _ _); simpl;
      now rewrite ?goals_set_memory, ?goals_ensure_memory.
  - destruct (memory_tools.record_pattern _ _ _ _ _) as [[?|?] ?]; simpl;
      now rewrite ?goals_set_memory, ?goals_ensure_memory.
  - now destruct (tasks st).
  - now destruct (tasks st).
  - now destruct (reminders st).
  - destruct (reminders st); simpl;
      try destruct (task_tools.user_reminders _ _); reflexivity.
  - destruct (tasks st), (reminders st); simpl;
      repeat match goal with
        | |- context [match ?x with _ => _ end] => destruct x; simpl
        end; reflexivity.
  - reflexivity.
  - destruct (goals st) eqn:E; simpl; now rewrite ?E.
  - destruct (goals st) as [gs|] eqn:E; simpl; [|now rewrite E].
    destruct (goal_tools.update_first _ _ gs) as [[gs' g']|]; simpl;
      now rewrite ?E.
  - destruct (goals st) as [gs|] eqn:E; simpl; [|now rewrite E].
    destruct (List.find _ gs); simpl; now rewrite E.
  - destruct (goals st) as [gs|] eqn:E; simpl; [|now rewrite E].
    destruct (goal_tools.user_goals _ gs); simpl; now rewrite E.
  - destruct (goals st) as [gs|] eqn:E; simpl; [|now rewrite E].
    destruct (goal_tools.update_first _ _ gs) as [[gs' g']|]; simpl;
      now rewrite ?E.
Qed.

(** The loop rewrites one position: the first that passes the test. *)
Lemma update_first_position test mutate (gs gs' : list Goal) g' :
  goal_tools.update_first test mutate gs = Some (gs', g') ->
  exists i g,
    gs !! i = Some g /\ test g = true
    /\ List.find test gs = Some g
    /\ g' = mutate g /\ gs' = <[i := mutate g]> gs.
Proof.
  revert gs' g'. induction gs as [|x gs IH]; simpl; intros gs' g';
    [discriminate|].
  destruct (test x) eqn:Ex.
  - intros [= <- <-]. exists 0, x. repeat split; assumption.
  - destruct (goal_tools.update_first test mutate gs) as [[gs1 g1]|] eqn:E;
      [|discriminate].
    intros [= <- <-].
    destruct (IH _ _ eq_refl) as (i & g & Hi & Hg & Hfind & -> & ->).
    exists (S i), g. repeat split; assumption.
Qed.

(** What the mutation keeps, the list keeps position by position. *)
Lemma update_first_keeps {A} (f : Goal -> A) test mutate
    (gs gs' : list Goal) g' :
  (forall g, f (mutate g) = f g) ->
  goal_tools.update_first test mutate gs = Some (gs', g') ->
  map f gs' = map f gs.
Proof.
  intros Hf H.
  destruct (update_first_position _ _ _ _ _ H) as (i & g & Hi & _ & _ & _ & ->).
  apply list_eq. intros j. rewrite !list_lookup_fmap.
  destruct (decide (i = j)) as [<-|Hne].
  - rewrite list_lookup_insert_eq by (eapply lookup_lt_Some; exact Hi).
    rewrite Hi. simpl. now rewrite Hf.
  - now rewrite list_lookup_insert_ne.
Qed.

Lemma goals_after_ids c tc gs :
  map g_id (goals_after c tc gs)
  = (map g_id gs
       ++ match c with
          | call_create_goal_with_routine _ _ _ _ _ _ =>
              [(Z.of_nat (length gs) + 1)%Z]
          | _ => []
          end)%list.
Proof.
  destruct c; simpl; rewrite ?app_nil_r; try reflexivity.
  - now rewrite map_app.
  - destruct (goal_tools.update_first _ _ gs) as [[gs' g']|] eqn:E;
      [|reflexivity].
    eapply update_first_keeps; [|exact E]. reflexivity.
  - destruct (goal_tools.update_first _ _ gs) as [[gs' g']|] eqn:E;
      [|reflexivity].
    eapply update_first_keeps; [|exact E]. reflexivity.
Qed.

Lemma counted_snoc ids :
  counted ids -> counted (ids ++ [(Z.of_nat (length ids) + 1)%Z]).
Proof.
  unfold counted. intros H.
  rewrite length_app. simpl. rewrite seq_app, map_app. simpl.
  now rewrite <- H.
Qed.

Lemma goal_ids_run {py : StrMethods} trace st :
  counted (map g_id (goals_list st)) ->
  counted (map g_id (goals_list (run trace st))).
Proof.
  revert st. induction trace as [|[tc c] trace IH]; intros st H;
    [exact H|].
  rewrite run_cons. apply IH. rewrite invoke_goals, goals_after_ids.
  destruct c; rewrite ?app_nil_r; try exact H.
  pose proof (counted_snoc _ H) as H'. now rewrite length_map in H'.
Qed.

Lemma counted_lookup ids k z :
  counted ids -> ids !! k = Some z -> z = (Z.of_nat k + 1)%Z.
Proof.
  intros H Hk. rewrite H in Hk. rewrite list_lookup_fmap in Hk.
  destruct (seq 0 (length ids) !! k) as [n|] eqn:E; [|discriminate].
  apply lookup_seq in E. destruct E as [-> _]. now injection Hk as <-.
Qed.

Lemma counted_NoDup ids : counted ids -> NoDup ids.
Proof.
  intros H. apply NoDup_alt. intros i j x Hi Hj.
  apply (counted_lookup _ _ _ H) in Hi, Hj. lia.
Qed.

(** In a counted list no goal bears the next id. *)
Lemma counted_fresh gs g :
  counted (map g_id gs) -> In g gs ->
  g_id g <> (Z.of_nat (length gs) + 1)%Z.
Proof.
  intros H Hin Heq. apply list_elem_of_In, list_elem_of_lookup in Hin.
  destruct Hin as [k Hk].
  assert (Hk' : map g_id gs !! k = Some (g_id g)).
  { rewrite list_lookup_fmap, Hk. reflexivity. }
  apply (counted_lookup _ _ _ H) in Hk'.
  apply lookup_lt_Some in Hk. lia.
Qed.

End GoalRuns.

(** X3.  Goal ids come from one sequence too: after any run of tool calls
    on a fresh store the goal at position [k] has id [k + 1] and the ids are
    pairwise distinct, because [create_goal_with_routine] numbers by the
    length of the collection and neither [approve_goal] nor
    [update_goal_status] adds, removes or renumbers a goal. *)
Theorem goal_ids_count_the_shared_collection :
  forall (py : StrMethods) (trace : list (ToolContext * tool_call)),
    let gs := goals_list (run trace empty_state) in
    map g_id gs = map (fun k => (Z.of_nat k + 1)%Z) (seq 0 (length gs))
    /\ NoDup (map g_id gs).
Proof.
  intros py trace gs.
  assert (H : counted (map g_id gs)).
  { unfold gs. apply goal_ids_run. reflexivity. }
  split.
  - unfold counted in H. now rewrite length_map in H.
  - now apply counted_NoDup.
Qed.

(** X4.  [approve_goal] and [update_goal_status] rewrite at most one goal,
    one that bears the given id and belongs to the caller: the list of
    goals they leave is the list they found, or that list with one such
    goal replaced by its approved (resp. re-statused) version.  Every other
    goal, and every goal of another user, stays as it was. *)
Theorem goal_writers_change_one_goal_of_the_caller :
  forall (goal_id : Z) (status : string) (tc : ToolContext) (st : State),
    let gs := goals_list st in
    let changed_by (mutate : Goal -> Goal) (gs' : list Goal) :=
      gs' = gs
      \/ exists i g,
           gs !! i = Some g /\ g_id g = goal_id /\ g_user_id g = user_id tc
           /\ gs' = <[i := mutate g]> gs in
    changed_by (goal_tools.approve (isoformat (now tc)))
      (goals_list (snd (goal_tools.approve_goal goal_id tc st)))
    /\ changed_by (goal_tools.set_status status (isoformat (now tc)))
         (goals_list (snd (goal_tools.update_goal_status goal_id status tc st))).
Proof.
  intros goal_id status tc st gs changed_by.
  assert (Hone : forall mutate,
             changed_by mutate
               (match goal_tools.update_first
                        (goal_tools.is_goal goal_id (user_id tc)) mutate gs with
                | Some (gs', _) => gs'
                | None => gs
                end)).
  { intros mutate.
    destruct (goal_tools.update_first _ mutate gs) as [[gs' g']|] eqn:E;
      [|now left].
    right.
    destruct (update_first_position _ _ _ _ _ E)
      as (i & g & Hi & Hg & _ & _ & ->).
    unfold goal_tools.is_goal in Hg. apply andb_prop in Hg.
    destruct Hg as [Hid Hu]. apply Z.eqb_eq in Hid. apply String.eqb_eq in Hu.
    exists i, g. repeat split; assumption. }
  split.
  - pose proof (invoke_goals (py := ascii_methods)
                  (call_approve_goal goal_id) tc st) as H.
    simpl in H. rewrite H. apply Hone.
  - pose proof (invoke_goals (py := ascii_methods)
                  (call_update_goal_status goal_id status) tc st) as H.
    simpl in H. rewrite H. apply Hone.
Qed.

Section Lifecycle.

Lemma find_app_miss {A} (test : A -> bool) (l1 l2 : list A) :
  List.find test l1 = None ->
  List.find test (l1 ++ l2) = List.find test l2.
Proof.
  induction l1 as [|x l1 IH]; simpl; [reflexivity|].
  destruct (test x); [discriminate|exact IH].
Qed.

Lemma create_goal_store title goal_description routine frequency duration
    start_date tc st :
  goals (snd (goal_tools.create_goal_with_routine title goal_description
                routine frequency duration start_date tc st))
  = Some (goals_list st
            ++ [new_goal title goal_description routine frequency duration
                  start_date tc (goals_list st)])%list.
Proof.
  unfold goal_tools.create_goal_with_routine, goals_list, new_goal.
  destruct (goals st) eqn:E; simpl; now rewrite ?E.
Qed.

Lemma update_first_app_miss (test : Goal -> bool) (mutate : Goal -> Goal)
    (l : list Goal) (g : Goal) :
  List.find test l = None ->
  test g = true ->
  goal_tools.update_first test mutate (l ++ [g])%list
  = Some ((l ++ [mutate g])%list, mutate g).
Proof.
  intros Hmiss Hg. induction l as [|x l IH]; simpl.
  - now rewrite Hg.
  - simpl in Hmiss. destruct (test x); [discriminate|].
    now rewrite (IH Hmiss).
Qed.

End Lifecycle.

(** X5.  The life of a goal in a store reached by any run on a fresh
    store.  [create_goal_with_routine] answers with the announcement of the
    id it assigned, the number of goals in the store plus one, and of what
    was asked for, and appends to the store one goal with that id, the
    caller as owner, the fields asked for, status pending_approval, not
    approved.  [get_goal] with that id then shows the creator the goal as
    pending approval, with the day of its creation.  [approve_goal] with
    that id by the creator confirms and leaves the stored goal approved,
    active and stamped with the time of the approval, every other field as
    it was; [get_goal] then shows it as active.  [approve_goal] with that id
    by another user is answered with the not-found message and leaves the
    store as it was. *)
Theorem created_goal_is_pending_until_its_owner_approves :
  forall (py : StrMethods) (trace : list (ToolContext * tool_call))
         (title goal_description routine frequency duration start_date : string)
         (tc tc2 tc3 : ToolContext),
    user_id tc2 = user_id tc ->
    user_id tc3 <> user_id tc ->
    let st := run trace empty_state in
    let n := (Z.of_nat (length (goals_list st)) + 1)%Z in
    let goal (approved : bool) :=
      {| g_id := n; g_user_id := user_id tc; g_title := title;
         g_description := goal_description; g_routine := routine;
         g_frequency := frequency; g_duration := duration;
         g_start_date := start_date;
         g_status := if approved then "active" else "pending_approval";
         g_created_at := isoformat (now tc);
         g_approved := approved;
         g_approved_at :=
           if approved then Some (isoformat (now tc2)) else None;
         g_updated_at := None |} in
    let shown (approved : bool) :=
      Py.nl ++ (if approved then "✅" else "⏳") ++ " Goal #" ++ str_of_Z n
        ++ ": **" ++ title ++ "** ("
        ++ (if approved then "Active" else "Pending Approval") ++ ")" ++ Py.nl
        ++ Py.nl ++ "🎯 Goal: " ++ goal_description ++ Py.nl
        ++ Py.nl ++ "📅 Routine:" ++ Py.nl
        ++ routine ++ Py.nl
        ++ Py.nl ++ "⏰ Frequency: " ++ frequency ++ Py.nl
        ++ "⏳ Duration: " ++ duration ++ Py.nl
        ++ "🚀 Start Date: " ++ start_date ++ Py.nl
        ++ "📆 Created: " ++ substring 0 10 (isoformat (now tc)) ++ Py.nl in
    let r :=
      goal_tools.create_goal_with_routine title goal_description routine
        frequency duration start_date tc st in
    let r2 := goal_tools.approve_goal n tc2 (snd r) in
    fst r
    = Py.nl ++ "📋 Goal Created (ID: " ++ str_of_Z n
        ++ ") - Pending Your Approval" ++ Py.nl
        ++ Py.nl ++ "**" ++ title ++ "**" ++ Py.nl
        ++ Py.nl ++ "🎯 Goal: " ++ goal_description ++ Py.nl
        ++ Py.nl ++ "📅 Routine:" ++ Py.nl
        ++ routine ++ Py.nl
        ++ Py.nl ++ "⏰ Frequency: " ++ frequency ++ Py.nl
        ++ "⏳ Duration: " ++ duration ++ Py.nl
        ++ "🚀 Start Date: " ++ start_date ++ Py.nl
        ++ Py.nl
        ++ "Type 'approve' to activate this goal, or tell me what you'd like to change."
        ++ Py.nl
    /\ goals_list (snd r) = (goals_list st ++ [goal false])%list
    /\ goal_tools.get_goal n tc2 (snd r) = (shown false, snd r)
    /\ fst r2
       = "✅ Goal '" ++ title ++ "' is now active! Let's make it happen! 🎉"
    /\ goals_list (snd r2) = (goals_list st ++ [goal true])%list
    /\ goal_tools.get_goal n tc2 (snd r2) = (shown true, snd r2)
    /\ goal_tools.approve_goal n tc3 (snd r)
       = ("❌ Goal ID " ++ str_of_Z n ++ " not found.", snd r).
Proof.
  intros py trace title goal_description routine frequency duration
    start_date tc tc2 tc3 Hsame Hother st n goal shown r r2.
  assert (Hcount : counted (map g_id (goals_list st))).
  { unfold st. apply goal_ids_run. reflexivity. }
  assert (Hmiss : forall uid,
             List.find (goal_tools.is_goal n uid) (goals_list st) = None).
  { intros uid. apply find_is_goal_none. intros g Hin [Hid _].
    exact (counted_fresh _ _ Hcount Hin Hid). }
  assert (Hstore : goals (snd r) = Some (goals_list st ++ [goal false])%list).
  { unfold r. apply create_goal_store. }
  assert (Htest : forall b,
             goal_tools.is_goal n (user_id tc) (goal b) = true).
  { intros b. unfold goal_tools.is_goal, goal. cbn [g_id g_user_id].
    now rewrite Z.eqb_refl, String.eqb_refl. }
  assert (Hfind : forall b,
             List.find (goal_tools.is_goal n (user_id tc))
               (goals_list st ++ [goal b])%list = Some (goal b)).
  { intros b. rewrite find_app_miss by apply Hmiss.
    cbn [List.find]. now rewrite Htest. }
  assert (Hup : goal_tools.update_first
                  (goal_tools.is_goal n (user_id tc))
                  (goal_tools.approve (isoformat (now tc2)))
                  (goals_list st ++ [goal false])%list
                = Some ((goals_list st ++ [goal true])%list, goal true)).
  { now rewrite update_first_app_miss by (apply Hmiss || apply Htest). }
  assert (Happ : r2 = ("✅ Goal '" ++ title
                         ++ "' is now active! Let's make it happen! 🎉",
                       set_goals (goals_list st ++ [goal true])%list (snd r))).
  { unfold r2, goal_tools.approve_goal. now rewrite Hstore, Hsame, Hup. }
  split.
  { unfold r, goal_tools.create_goal_with_routine. cbn [fst].
    unfold n, goals_list.
    destruct (goals st) eqn:E; simpl; rewrite ?E; reflexivity. }
  split; [unfold goals_list at 1; now rewrite Hstore|].
  split.
  { unfold goal_tools.get_goal. now rewrite Hstore, Hsame, Hfind. }
  split; [now rewrite Happ|].
  split; [now rewrite Happ|].
  split.
  { rewrite Happ. unfold goal_tools.get_goal. cbn [snd set_goals goals].
    now rewrite Hsame, Hfind. }
  unfold goal_tools.approve_goal. rewrite Hstore.
  rewrite update_first_miss; [reflexivity|].
  rewrite find_app_miss by apply Hmiss. cbn [List.find].
  unfold goal_tools.is_goal, goal. cbn [g_id g_user_id].
  apply String.eqb_neq in Hother. rewrite String.eqb_sym in Hother.
  rewrite Hother. now rewrite andb_false_r.
Qed.

Lemma created_goal_lifecycle_witness :
  user_id alice_later = user_id alice
  /\ user_id bob <> user_id alice
  /\ goals_list pending_store = [walk_goal]
  /\ fst (goal_tools.approve_goal 1 alice_later pending_store)
     = "✅ Goal 'Morning Walk Routine' is now active! Let's make it happen! 🎉"
  /\ goal_tools.approve_goal 1 bob pending_store
     = ("❌ Goal ID 1 not found.", pending_store).
Proof.
  assert (Hne : user_id bob <> user_id alice) by discriminate.
  pose proof (created_goal_is_pending_until_its_owner_approves ascii_methods
                [] "Morning Walk Routine"
                "Build a consistent walking habit for fitness"
                "Walk outside for 20 minutes" "3x per week" "30 days"
                "2025-12-02" alice alice_later bob eq_refl Hne)
    as (_ & Hstore & _ & Happ & _ & _ & Hbob).
  split; [reflexivity|]. split; [exact Hne|].
  split; [exact Hstore|]. split; [exact Happ|exact Hbob].
Defined.

(** ** One user's calls and another user's data *)

Section Isolation.

Implicit Types (trace : list (ToolContext * tool_call)) (st : State).

Lemma list_goals_renders tc st :
  fst (goal_tools.list_goals tc st)
  = render_goals (goal_tools.user_goals (user_id tc) (goals_list st)).
Proof.
  unfold goal_tools.list_goals, goals_list, render_goals.
  destruct (goals st) as [gs|]; simpl; [|reflexivity].
  now destruct (goal_tools.user_goals _ gs).
Qed.

Lemma filter_insert_out {A} (keep : A -> bool) (l : list A) i x y :
  l !! i = Some x -> keep x = false -> keep y = false ->
  List.filter keep (<[i := y]> l) = List.filter keep l.
Proof.
  revert i. induction l as [|a l IH]; intros i Hi Hx Hy; [discriminate|].
  destruct i as [|i]; simpl in *.
  - injection Hi as ->. now rewrite Hx, Hy.
  - now rewrite (IH i Hi Hx Hy).
Qed.

Lemma user_goals_after c tc uid gs :
  user_id tc <> uid ->
  goal_tools.user_goals uid (goals_after c tc gs)
  = goal_tools.user_goals uid gs.
Proof.
  intros Hne. apply String.eqb_neq in Hne.
  assert (Hone : forall mutate,
             (forall g, g_user_id (mutate g) = g_user_id g) ->
             goal_tools.user_goals uid
               (match goal_tools.update_first
                        (goal_tools.is_goal
                           match c with
                           | call_approve_goal goal_id
                           | call_get_goal goal_id
                           | call_update_goal_status goal_id _ => goal_id
                           | _ => 0%Z
                           end (user_id tc)) mutate gs with
                | Some (gs', _) => gs'
                | None => gs
                end)
             = goal_tools.user_goals uid gs).
  { intros mutate Hkeep.
    destruct (goal_tools.update_first _ mutate gs) as [[gs' g']|] eqn:E;
      [|reflexivity].
    destruct (update_first_position _ _ _ _ _ E)
      as (i & g & Hi & Hg & _ & _ & ->).
    unfold goal_tools.is_goal in Hg. apply andb_prop in Hg.
    destruct Hg as [_ Hu]. apply String.eqb_eq in Hu.
    unfold goal_tools.user_goals.
    apply (filter_insert_out _ gs i g); [exact Hi| |].
    - now rewrite Hu.
    - now rewrite Hkeep, Hu. }
  destruct c; simpl; try reflexivity.
  - unfold goal_tools.user_goals. rewrite List.filter_app. simpl.
    rewrite Hne. now rewrite app_nil_r.
  - apply (Hone (goal_tools.approve _)). reflexivity.
  - apply (Hone (goal_tools.set_status _ _)). reflexivity.
Qed.

Lemma user_tasks_after {py : StrMethods} c tc uid st :
  user_id tc <> uid ->
  task_tools.user_tasks uid (tasks_list (snd (invoke c tc st)))
  = task_tools.user_tasks uid (tasks_list st).
Proof.
  intros Hne. apply String.eqb_neq in Hne. rewrite invoke_tasks.
  unfold task_tools.user_tasks. rewrite List.filter_app.
  destruct c; simpl; rewrite ?Hne; now rewrite app_nil_r.
Qed.

Lemma user_reminders_after {py : StrMethods} c tc uid st :
  user_id tc <> uid ->
  task_tools.user_reminders uid (reminders_list (snd (invoke c tc st)))
  = task_tools.user_reminders uid (reminders_list st).
Proof.
  intros Hne. apply String.eqb_neq in Hne. rewrite invoke_reminders.
  unfold task_tools.user_reminders. rewrite List.filter_app.
  destruct c; simpl; rewrite ?Hne; now rewrite app_nil_r.
Qed.

Lemma record_of_ensure_other uid' uid st :
  uid' <> uid ->
  record_of uid (memory_tools.ensure_memory uid' st) = record_of uid st.
Proof.
  intros Hne. unfold record_of, memory_tools.ensure_memory.
  destruct (user_memories st) as [ums|] eqn:E; simpl; rewrite ?E; simpl.
  - destruct (ums !! uid'); simpl; rewrite ?E; simpl; [reflexivity|].
    now rewrite lookup_insert_ne.
  - rewrite lookup_empty. simpl. now rewrite lookup_insert_ne.
Qed.

Lemma record_of_set_other uid' uid memory st :
  uid' <> uid ->
  record_of uid (memory_tools.set_memory uid' memory st) = record_of uid st.
Proof.
  intros Hne. unfold record_of, memory_tools.set_memory. simpl.
  now rewrite lookup_insert_ne.
Qed.

Lemma record_of_after {py : StrMethods} c tc uid st :
  user_id tc <> uid ->
  record_of uid (snd (invoke c tc st)) = record_of uid st.
Proof.
  intros Hne.
  destruct c; simpl;
    unfold may_return_str, memory_tools.save_to_memory,
      memory_tools.save_therapeutic_pattern, task_tools.get_tasks,
      task_tools.get_reminders, task_tools.get_all_items,
      task_tools.create_task, task_tools.schedule_reminder,
      goal_tools.create_goal_with_routine, goal_tools.approve_goal,
      goal_tools.update_goal_status, goal_tools.get_goal,
      goal_tools.list_goals; simpl.
  - now apply record_of_ensure_other.
  - destruct (memory_tools.route _ _ _); simpl;
      rewrite ?record_of_set_other by exact Hne;
      now apply record_of_ensure_other.
  - destruct (memory_tools.record_pattern _ _ _ _ _) as [[?|?] ?]; simpl;
      rewrite ?record_of_set_other by exact Hne;
      now apply record_of_ensure_other.
  - now destruct (tasks st).
  - now destruct (tasks st).
  - now destruct (reminders st).
  - destruct (reminders st); simpl;
      try destruct (task_tools.user_reminders _ _); reflexivity.
  - destruct (tasks st), (reminders st); simpl;
      repeat match goal with
        | |- context [match ?x with _ => _ end] => destruct x; simpl
        end; reflexivity.
  - reflexivity.
  - now destruct (goals st).
  - destruct (goals st) as [gs|]; simpl; [|reflexivity].
    now destruct (goal_tools.update_first _ _ gs) as [[gs' g']|].
  - destruct (goals st) as [gs|]; simpl; [|reflexivity].
    now destruct (List.find _ gs).
  - destruct (goals st) as [gs|]; simpl; [|reflexivity].
    now destruct (goal_tools.user_goals _ gs).
  - destruct (goals st) as [gs|]; simpl; [|reflexivity].
    now destruct (goal_tools.update_first _ _ gs) as [[gs' g']|].
Qed.

(** The record [load_memory] returns is the stored one, or the default. *)
Lemma memory_of_ensure uid st :
  memory_tools.memory_of uid (memory_tools.ensure_memory uid st)
  = default memory_tools.default_memory (record_of uid st).
Proof.
  unfold memory_tools.memory_of, memory_tools.ensure_memory, record_of.
  destruct (user_memories st) as [ums|] eqn:E; simpl; rewrite ?E; simpl.
  - destruct (ums !! uid) eqn:Eu; simpl; rewrite ?E; simpl.
    + now rewrite Eu.
    + now rewrite lookup_insert_eq.
  - rewrite lookup_empty. simpl. now rewrite lookup_insert_eq.
Qed.

Lemma find_is_goal_user_goals goal_id uid gs :
  List.find (goal_tools.is_goal goal_id uid) gs
  = List.find (fun g => (g_id g =? goal_id)%Z) (goal_tools.user_goals uid gs).
Proof.
  unfold goal_tools.user_goals, goal_tools.is_goal.
  induction gs as [|g gs IH]; simpl; [reflexivity|].
  destruct (String.eqb (g_user_id g) uid); simpl.
  - rewrite andb_true_r. now destruct (g_id g =? goal_id)%Z.
  - now rewrite andb_false_r.
Qed.

Lemma view_after {py : StrMethods} c tc uid st :
  user_id tc <> uid -> view uid (snd (invoke c tc st)) = view uid st.
Proof.
  intros Hne. unfold view.
  now rewrite user_tasks_after, user_reminders_after, invoke_goals,
    user_goals_after, record_of_after.
Qed.

Lemma view_run {py : StrMethods} uid trace st :
  made_by_others uid trace = true -> view uid (run trace st) = view uid st.
Proof.
  revert st. induction trace as [|[tc c] trace IH]; intros st H;
    [reflexivity|].
  simpl in H. apply andb_prop in H. destruct H as [Hc Hrest].
  apply negb_true_iff, String.eqb_neq in Hc.
  rewrite run_cons, IH by exact Hrest. now apply view_after.
Qed.

End Isolation.

(** X6.  The calls of other users never change what a user reads.  After
    any run in which no call is made by the user, [get_tasks],
    [get_reminders], [get_all_items], [list_goals] and [load_memory] answer
    as they did before the run, and a goal id leads the user to the same
    goal as before. *)
Theorem other_users_calls_leave_a_users_reads_unchanged :
  forall (py : StrMethods) (trace : list (ToolContext * tool_call))
         (tc : ToolContext) (goal_id : Z) (st : State),
    made_by_others (user_id tc) trace = true ->
    let st' := run trace st in
    fst (task_tools.get_tasks tc st') = fst (task_tools.get_tasks tc st)
    /\ fst (task_tools.get_reminders tc st')
       = fst (task_tools.get_reminders tc st)
    /\ fst (task_tools.get_all_items tc st')
       = fst (task_tools.get_all_items tc st)
    /\ fst (goal_tools.list_goals tc st') = fst (goal_tools.list_goals tc st)
    /\ fst (memory_tools.load_memory tc st')
       = fst (memory_tools.load_memory tc st)
    /\ List.find (goal_tools.is_goal goal_id (user_id tc)) (goals_list st')
       = List.find (goal_tools.is_goal goal_id (user_id tc)) (goals_list st).
Proof.
  intros py trace tc goal_id st H st'.
  pose proof (view_run (user_id tc) trace st H) as Hview.
  fold st' in Hview. unfold view in Hview.
  injection Hview as Ht Hr Hg Hm.
  repeat split.
  - now rewrite !get_tasks_renders, Ht.
  - now rewrite !get_reminders_renders, Hr.
  - now rewrite !get_all_items_renders, Ht, Hr.
  - now rewrite !list_goals_renders, Hg.
  - unfold memory_tools.load_memory. simpl.
    now rewrite !memory_of_ensure, Hm.
  - now rewrite !find_is_goal_user_goals, Hg.
Qed.

Lemma other_users_calls_witness :
  made_by_others (user_id alice)
    [(bob, call_create_task "Finish report" "2025-12-06" "high");
     (bob, call_approve_goal 1);
     (bob, call_save_to_memory "name" "Bob")] = true
  /\ fst (goal_tools.list_goals alice
            (run (py := ascii_methods)
               [(bob, call_create_task "Finish report" "2025-12-06" "high");
                (bob, call_approve_goal 1);
                (bob, call_save_to_memory "name" "Bob")] pending_store))
     = fst (goal_tools.list_goals alice pending_store).
Proof.
  split; [reflexivity|].
  pose proof (other_users_calls_leave_a_users_reads_unchanged ascii_methods
                [(bob, call_create_task "Finish report" "2025-12-06" "high");
                 (bob, call_approve_goal 1);
                 (bob, call_save_to_memory "name" "Bob")]
                alice 1 pending_store eq_refl)
    as (_ & _ & _ & Hgoals & _).
  exact Hgoals.
Defined.

(** ** Reading tools and [load_memory] *)

Section Lookups.

Implicit Types (st : State).

Lemma snd_get_tasks tc st : snd (task_tools.get_tasks tc st) = init_tasks st.
Proof. reflexivity. Qed.

Lemma snd_get_reminders tc st :
  snd (task_tools.get_reminders tc st) = init_reminders st.
Proof.
  unfold task_tools.get_reminders, init_reminders.
  now destruct (task_tools.user_reminders _ _).
Qed.

Lemma snd_get_all_items {py : StrMethods} tc st :
  snd (task_tools.get_all_items tc st) = init_reminders (init_tasks st).
Proof.
  unfold task_tools.get_all_items, init_reminders, init_tasks.
  destruct (task_tools.user_tasks _ _);
    destruct (task_tools.user_reminders _ _); reflexivity.
Qed.

Lemma snd_get_goal goal_id tc st :
  snd (goal_tools.get_goal goal_id tc st) = st.
Proof.
  unfold goal_tools.get_goal. destruct (goals st) as [gs|]; [|reflexivity].
  now destruct (List.find _ gs).
Qed.

Lemma snd_list_goals tc st : snd (goal_tools.list_goals tc st) = st.
Proof.
  unfold goal_tools.list_goals. destruct (goals st) as [gs|]; [|reflexivity].
  now destruct (goal_tools.user_goals _ gs).
Qed.

Lemma init_tasks_list st : tasks_list (init_tasks st) = tasks_list st.
Proof.
  unfold init_tasks, tasks_list. destruct (tasks st) eqn:E; simpl;
    now rewrite ?E.
Qed.

Lemma init_reminders_list st :
  reminders_list (init_reminders st) = reminders_list st.
Proof.
  unfold init_reminders, reminders_list. destruct (reminders st) eqn:E; simpl;
    now rewrite ?E.
Qed.

Lemma init_tasks_again st : init_tasks (init_tasks st) = init_tasks st.
Proof. unfold init_tasks. destruct (tasks st) eqn:E; simpl; now rewrite ?E. Qed.

Lemma init_reminders_again st :
  init_reminders (init_reminders st) = init_reminders st.
Proof.
  unfold init_reminders. destruct (reminders st) eqn:E; simpl; now rewrite ?E.
Qed.

Lemma init_commute st :
  init_tasks (init_reminders st) = init_reminders (init_tasks st).
Proof.
  unfold init_tasks, init_reminders.
  destruct (tasks st) eqn:Et; destruct (reminders st) eqn:Er; simpl;
    now rewrite ?Et, ?Er.
Qed.

Lemma init_tasks_frame st :
  reminders (init_tasks st) = reminders st
  /\ goals (init_tasks st) = goals st
  /\ user_memories (init_tasks st) = user_memories st.
Proof. unfold init_tasks. now destruct (tasks st). Qed.

Lemma init_reminders_frame st :
  tasks (init_reminders st) = tasks st
  /\ goals (init_reminders st) = goals st
  /\ user_memories (init_reminders st) = user_memories st.
Proof. unfold init_reminders. now destruct (reminders st). Qed.

End Lookups.

(** A lookup leaves the memory records as they were. *)
Lemma lookup_keeps_memories {py : StrMethods} q tc st :
  is_read q = true -> user_memories (snd (invoke q tc st)) = user_memories st.
Proof.
  intros Hq. destruct q; try discriminate Hq;
    unfold invoke, returns_str; cbn [snd].
  - rewrite snd_get_tasks. apply init_tasks_frame.
  - rewrite snd_get_reminders. apply init_reminders_frame.
  - rewrite snd_get_all_items.
    rewrite (proj2 (proj2 (init_reminders_frame _))). apply init_tasks_frame.
  - reflexivity.
  - now rewrite snd_get_goal.
  - now rewrite snd_list_goals.
Qed.

(** X7.  The six lookup tools ([get_tasks], [get_reminders],
    [get_all_items], [get_goal], [list_goals], [get_current_datetime]) never
    change a task, a reminder, a goal or a memory record: at most they set a
    missing tasks or reminders key to the empty list.  Asking again with the
    same context gives the same answer and changes nothing more. *)
Theorem lookups_do_not_write :
  forall (py : StrMethods) (c : tool_call) (tc : ToolContext) (st : State),
    is_read c = true ->
    let st' := snd (invoke c tc st) in
    tasks_list st' = tasks_list st
    /\ reminders_list st' = reminders_list st
    /\ goals st' = goals st
    /\ user_memories st' = user_memories st
    /\ invoke c tc st' = (fst (invoke c tc st), st').
Proof.
  intros py c tc st Hread st'. unfold st'.
  destruct c; try discriminate Hread; clear Hread st';
    unfold invoke, returns_str; cbn [fst snd].
  - rewrite snd_get_tasks.
    destruct (init_tasks_frame st) as (_ & Hg & Hm).
    split; [apply init_tasks_list|]. split.
    { unfold reminders_list. now rewrite (proj1 (init_tasks_frame st)). }
    split; [exact Hg|]. split; [exact Hm|].
    f_equal; [|apply init_tasks_again].
    now rewrite !get_tasks_renders, init_tasks_list.
  - rewrite snd_get_reminders.
    destruct (init_reminders_frame st) as (Ht & Hg & Hm).
    split; [unfold tasks_list; now rewrite Ht|].
    split; [apply init_reminders_list|].
    split; [exact Hg|]. split; [exact Hm|].
    f_equal; [|now rewrite snd_get_reminders, init_reminders_again].
    now rewrite !get_reminders_renders, init_reminders_list.
  - rewrite snd_get_all_items.
    destruct (init_tasks_frame st) as (Hr1 & Hg1 & Hm1).
    destruct (init_reminders_frame (init_tasks st)) as (Ht2 & Hg2 & Hm2).
    assert (Ht : tasks_list (init_reminders (init_tasks st)) = tasks_list st).
    { unfold tasks_list at 1. rewrite Ht2. apply init_tasks_list. }
    assert (Hr : reminders_list (init_reminders (init_tasks st))
                 = reminders_list st).
    { rewrite init_reminders_list. unfold reminders_list. now rewrite Hr1. }
    split; [exact Ht|]. split; [exact Hr|].
    split; [congruence|]. split; [congruence|].
    f_equal.
    + now rewrite !get_all_items_renders, Ht, Hr.
    + rewrite snd_get_all_items.
      now rewrite (init_commute (init_tasks st)), init_tasks_again,
        init_reminders_again.
  - repeat split.
  - rewrite snd_get_goal. repeat split.
    rewrite (surjective_pairing (goal_tools.get_goal goal_id tc st)) at 1.
    now rewrite snd_get_goal.
  - rewrite snd_list_goals. repeat split.
    rewrite (surjective_pairing (goal_tools.list_goals tc st)) at 1.
    now rewrite snd_list_goals.
Qed.

Lemma lookups_do_not_write_witness :
  is_read call_get_all_items = true
  /\ tasks_list
       (snd (invoke (py := ascii_methods) call_get_all_items alice
               empty_state)) = []
  /\ goals
       (snd (invoke (py := ascii_methods) call_get_all_items alice
               empty_state)) = None.
Proof.
  split; [reflexivity|].
  pose proof (lookups_do_not_write ascii_methods call_get_all_items alice
                empty_state eq_refl) as (Ht & _ & Hg & _).
  split; [exact Ht|exact Hg].
Defined.

(** X8.  [load_memory] creates a user's record on first use and never
    alters an existing one.  It returns the stored record, or the default
    one for a user who has none; afterwards the store holds what it
    returned, a user who already had a record finds the store untouched,
    and a second call returns the same value and the same store.  Tasks,
    reminders and goals are not touched. *)
Theorem load_memory_creates_once :
  forall (tc : ToolContext) (st : State),
    let r := memory_tools.load_memory tc st in
    let memory :=
      default memory_tools.default_memory (record_of (user_id tc) st) in
    fst r = VDict {[ "user_id" := VStr (user_id tc);
                     "memory" := VDict memory ]}
    /\ record_of (user_id tc) (snd r) = Some memory
    /\ match record_of (user_id tc) st with
       | Some _ => snd r = st
       | None => memory = memory_tools.default_memory
       end
    /\ memory_tools.load_memory tc (snd r) = r
    /\ tasks (snd r) = tasks st /\ reminders (snd r) = reminders st
    /\ goals (snd r) = goals st.
Proof.
  intros tc st r memory.
  assert (Hrec : record_of (user_id tc) (snd r) = Some memory).
  { unfold r, memory, record_of, memory_tools.load_memory,
      memory_tools.ensure_memory. simpl.
    destruct (user_memories st) as [ums|] eqn:E; simpl; rewrite ?E; simpl.
    - destruct (ums !! user_id tc) eqn:Eu; simpl; rewrite ?E; simpl.
      + now rewrite Eu.
      + now rewrite lookup_insert_eq.
    - rewrite lookup_empty. simpl. now rewrite lookup_insert_eq. }
  assert (Hens : memory_tools.ensure_memory (user_id tc) (snd r) = snd r).
  { unfold record_of in Hrec. unfold memory_tools.ensure_memory.
    destruct (user_memories (snd r)) as [ums|] eqn:E; simpl in *.
    - rewrite E. simpl. now rewrite Hrec.
    - rewrite lookup_empty in Hrec. discriminate. }
  split.
  { unfold r, memory_tools.load_memory. simpl.
    now rewrite memory_of_ensure. }
  split; [exact Hrec|].
  split.
  { unfold r, memory, record_of, memory_tools.load_memory,
      memory_tools.ensure_memory. simpl.
    destruct (user_memories st) as [ums|] eqn:E; simpl; rewrite ?E; simpl.
    - destruct (ums !! user_id tc) eqn:Eu; simpl; reflexivity.
    - rewrite lookup_empty. reflexivity. }
  split.
  { unfold memory_tools.load_memory at 1. rewrite Hens. reflexivity. }
  unfold r, memory_tools.load_memory. simpl.
  now rewrite tasks_ensure_memory, reminders_ensure_memory,
    goals_ensure_memory.
Qed.

(** ** The shape of memory records *)

Section Shape.

Implicit Types (memory : gmap string pyval) (st : State).

Lemma shape_default : shape_ok memory_tools.default_memory.
Proof.
  unfold shape_ok. repeat split; try (eexists; reflexivity).
  exists ∅. split; [reflexivity|]. intros k b Hk.
  rewrite lookup_empty in Hk. discriminate.
Qed.

Lemma triggers_of_insert_other k v memory :
  k <> "therapeutic_patterns" ->
  triggers_of (<[k := v]> memory) = triggers_of memory.
Proof. intros Hk. unfold triggers_of. now rewrite lookup_insert_ne. Qed.

(** Writing a field keeps the shape when the value has the type the field
    has, and any write outside the five fields does. *)
Lemma shape_insert k v memory :
  shape_ok memory ->
  k <> "therapeutic_patterns" ->
  (k = "personal_details" \/ k = "preferences" -> exists d, v = VDict d) ->
  (k = "history" \/ k = "interests" -> exists l, v = VList l) ->
  shape_ok (<[k := v]> memory).
Proof.
  intros (Hpd & Hpf & Hh & Hi & Ht) Hk Hdict Hlist. unfold shape_ok.
  rewrite triggers_of_insert_other by exact Hk.
  repeat split; try exact Ht.
  - destruct (decide (k = "personal_details")) as [->|Hne].
    + destruct Hdict as [d ->]; [now left|].
      exists d. apply lookup_insert_eq.
    + now rewrite lookup_insert_ne.
  - destruct (decide (k = "preferences")) as [->|Hne].
    + destruct Hdict as [d ->]; [now right|].
      exists d. apply lookup_insert_eq.
    + now rewrite lookup_insert_ne.
  - destruct (decide (k = "history")) as [->|Hne].
    + destruct Hlist as [l ->]; [now left|].
      exists l. apply lookup_insert_eq.
    + now rewrite lookup_insert_ne.
  - destruct (decide (k = "interests")) as [->|Hne].
    + destruct Hlist as [l ->]; [now right|].
      exists l. apply lookup_insert_eq.
    + now rewrite lookup_insert_ne.
Qed.

(** On a record of the shape the ladder of [save_to_memory] returns, and
    it keeps the shape unless the key names one of the two fields that no
    branch handles. *)
Lemma route_shape key value memory :
  shape_ok memory ->
  key <> "personal_details" -> key <> "therapeutic_patterns" ->
  exists memory',
    memory_tools.route key value memory = Ok memory' /\ shape_ok memory'.
Proof.
  intros Hshape Hpd Htp.
  pose proof Hshape as ([pd Epd] & [pf Epf] & [h Eh] & [i Ei] & _).
  unfold memory_tools.route, memory_tools.set_item_in, memory_tools.append_to.
  destruct (String.eqb key "name") eqn:E1.
  { rewrite Epd. eexists. split; [reflexivity|].
    apply shape_insert;
      [exact Hshape | discriminate | intros _; eauto
      | intros [H|H]; discriminate H]. }
  destruct (String.eqb key "interests") eqn:E2.
  { rewrite Ei. eexists. split; [reflexivity|].
    apply shape_insert;
      [exact Hshape | discriminate | intros [H|H]; discriminate H
      | intros _; eauto]. }
  destruct (String.eqb key "preferences") eqn:E3.
  { rewrite Epf. eexists. split; [reflexivity|].
    apply shape_insert;
      [exact Hshape | discriminate | intros _; eauto
      | intros [H|H]; discriminate H]. }
  destruct (String.eqb key "history") eqn:E4.
  { rewrite Eh. eexists. split; [reflexivity|].
    apply shape_insert;
      [exact Hshape | discriminate | intros [H|H]; discriminate H
      | intros _; eauto]. }
  apply String.eqb_neq in E2, E3, E4.
  eexists. split; [reflexivity|].
  apply shape_insert; [exact Hshape|exact Htp| |];
    intros [H|H]; congruence.
Qed.

(** On a record of the shape [save_therapeutic_pattern] finds or creates
    the bucket and appends to it; the record it leaves is the one it found
    with that one bucket replaced. *)
Lemma record_pattern_written k response stamp helpful memory t :
  triggers_of memory = Some t ->
  (forall k' b, t !! k' = Some b -> is_Some (both_lists b)) ->
  exists patterns bucket',
    memory !! "therapeutic_patterns" = Some (VDict patterns)
    /\ memory_tools.record_pattern k response stamp helpful memory
       = (Ok tt,
          <["therapeutic_patterns" :=
              VDict (<["triggers" := VDict (<[k := bucket']> t)]> patterns)]>
            memory)
    /\ both_lists bucket'
       = Some (add_entry helpful (memory_tools.pattern_entry response stamp)
                 (default ([], [])
                    (both_lists (default memory_tools.empty_bucket (t !! k))))).
Proof.
  intros Ht Hbuckets. unfold triggers_of in Ht.
  destruct (memory !! "therapeutic_patterns") as [[?|?|patterns]|] eqn:Ep;
    try discriminate.
  destruct (patterns !! "triggers") as [[?|?|t0]|] eqn:Et; try discriminate.
  injection Ht as ->.
  unfold memory_tools.record_pattern. rewrite Ep, Et. simpl.
  destruct (t !! k) as [bucket|] eqn:Ek; simpl.
  - rewrite Ek. destruct (Hbuckets _ _ Ek) as [[hs us] Hb].
    destruct (both_lists_append helpful
                (memory_tools.pattern_entry response stamp) bucket hs us Hb)
      as (bucket' & -> & Hb').
    exists patterns, bucket'. rewrite Hb. simpl. auto.
  - rewrite lookup_insert_eq.
    destruct (both_lists_append helpful
                (memory_tools.pattern_entry response stamp)
                memory_tools.empty_bucket [] [] both_lists_empty_bucket)
      as (bucket' & -> & Hb').
    exists patterns, bucket'. rewrite insert_insert_eq.
    rewrite both_lists_empty_bucket. simpl. auto.
Qed.

Lemma record_pattern_shape k response stamp helpful memory :
  shape_ok memory ->
  exists memory',
    memory_tools.record_pattern k response stamp helpful memory
    = (Ok tt, memory')
    /\ shape_ok memory'.
Proof.
  intros Hshape.
  pose proof Hshape as ([pd Epd] & [pf Epf] & [h Eh] & [i Ei] & t & Ht & Hb).
  destruct (record_pattern_written k response stamp helpful memory t Ht Hb)
    as (patterns & bucket' & Ep & -> & Hb').
  eexists. split; [reflexivity|]. unfold shape_ok.
  rewrite triggers_of_written.
  rewrite !lookup_insert_ne by discriminate.
  repeat split; eauto.
  exists (<[k := bucket']> t). split; [reflexivity|].
  intros k' b Hk'.
  destruct (decide (k = k')) as [<-|Hne].
  - rewrite lookup_insert_eq in Hk'. injection Hk' as <-. now rewrite Hb'.
  - rewrite lookup_insert_ne in Hk' by exact Hne. eauto.
Qed.

Lemma store_ok_ensure uid st :
  store_ok st -> store_ok (memory_tools.ensure_memory uid st).
Proof.
  intros H uid' memory Hrec.
  destruct (decide (uid = uid')) as [<-|Hne].
  - assert (Hm : memory_tools.memory_of uid (memory_tools.ensure_memory uid st)
                 = memory).
    { unfold memory_tools.memory_of. fold (record_of uid
        (memory_tools.ensure_memory uid st)). now rewrite Hrec. }
    rewrite memory_of_ensure in Hm. subst memory.
    destruct (record_of uid st) as [m|] eqn:E; simpl;
      [exact (H _ _ E) | exact shape_default].
  - rewrite record_of_ensure_other in Hrec by exact Hne. exact (H _ _ Hrec).
Qed.

Lemma store_ok_set uid memory st :
  shape_ok memory -> store_ok st ->
  store_ok (memory_tools.set_memory uid memory st).
Proof.
  intros Hm H uid' memory' Hrec.
  destruct (decide (uid = uid')) as [<-|Hne].
  - unfold record_of, memory_tools.set_memory in Hrec. simpl in Hrec.
    rewrite lookup_insert_eq in Hrec. now injection Hrec as <-.
  - rewrite record_of_set_other in Hrec by exact Hne. exact (H _ _ Hrec).
Qed.

Lemma shape_of_ensured uid st :
  store_ok st ->
  shape_ok (memory_tools.memory_of uid (memory_tools.ensure_memory uid st)).
Proof.
  intros H. rewrite memory_of_ensure.
  destruct (record_of uid st) as [m|] eqn:E; simpl;
    [exact (H _ _ E) | exact shape_default].
Qed.

(** A call that does not clobber returns, and keeps every record in
    shape. *)
Lemma invoke_careful {py : StrMethods} c tc st :
  store_ok st -> clobbers c = false ->
  returned (fst (invoke c tc st)) = true
  /\ store_ok (snd (invoke c tc st)).
Proof.
  intros Hst Hc.
  assert (Hframe : forall st', user_memories st' = user_memories st ->
                               store_ok st').
  { intros st' E uid memory Hrec. unfold record_of in Hrec.
    rewrite E in Hrec. exact (Hst _ _ Hrec). }
  assert (Hread : forall q, is_read q = true ->
                            returned (fst (invoke q tc st)) = true
                            /\ store_ok (snd (invoke q tc st))).
  { intros q Hq. split; [now destruct q|]. apply Hframe.
    now apply lookup_keeps_memories. }
  destruct c; try (apply Hread; reflexivity).
  - split; [reflexivity|]. unfold invoke, memory_tools.load_memory. simpl.
    now apply store_ok_ensure.
  - simpl in Hc. apply orb_false_elim in Hc. destruct Hc as [Hpd Htp].
    apply String.eqb_neq in Hpd, Htp.
    destruct (route_shape key value _ (shape_of_ensured (user_id tc) st Hst)
                Hpd Htp) as (memory' & Hroute & Hshape).
    unfold invoke, may_return_str, memory_tools.save_to_memory.
    rewrite Hroute. simpl.
    split; [reflexivity|].
    apply store_ok_set; [exact Hshape|now apply store_ok_ensure].
  - destruct (record_pattern_shape (memory_tools.trigger_key trigger) response
                (isoformat (now tc)) helpful _
                (shape_of_ensured (user_id tc) st Hst))
      as (memory' & Hrec & Hshape).
    unfold invoke, may_return_str, memory_tools.save_therapeutic_pattern.
    rewrite Hrec. simpl. split; [reflexivity|].
    apply store_ok_set; [exact Hshape|now apply store_ok_ensure].
  - split; [reflexivity|]. apply Hframe.
    unfold invoke, task_tools.create_task. simpl.
    destruct (tasks st) eqn:E; simpl; rewrite ?E; reflexivity.
  - split; [reflexivity|]. apply Hframe.
    unfold invoke, task_tools.schedule_reminder. simpl.
    destruct (reminders st) eqn:E; simpl; rewrite ?E; reflexivity.
  - split; [reflexivity|]. apply Hframe.
    unfold invoke, goal_tools.create_goal_with_routine. simpl.
    destruct (goals st) eqn:E; simpl; rewrite ?E; reflexivity.
  - split; [reflexivity|]. apply Hframe.
    unfold invoke, goal_tools.approve_goal. simpl.
    destruct (goals st) as [gs|]; [|reflexivity].
    now destruct (goal_tools.update_first _ _ gs) as [[gs' g']|].
  - split; [reflexivity|]. apply Hframe.
    unfold invoke, goal_tools.update_goal_status. simpl.
    destruct (goals st) as [gs|]; [|reflexivity].
    now destruct (goal_tools.update_first _ _ gs) as [[gs' g']|].
Qed.

Lemma run_careful {py : StrMethods} trace st :
  store_ok st -> careful trace = true ->
  forallb returned (outcomes trace st) = true /\ store_ok (run trace st).
Proof.
  revert st. induction trace as [|[tc c] trace IH]; intros st Hst Hcare.
  - now split.
  - simpl in Hcare. apply andb_prop in Hcare. destruct Hcare as [Hc Hrest].
    apply negb_true_iff in Hc.
    destruct (invoke_careful c tc st Hst Hc) as [Hret Hst'].
    destruct (IH _ Hst' Hrest) as [Hall Hfinal].
    split; [|exact Hfinal]. simpl. now rewrite Hret, Hall.
Qed.

End Shape.

(** X9.  No tool call raises as long as nobody overwrites a structured
    field: in a run on a fresh store in which no [save_to_memory] call uses
    the key personal_details or therapeutic_patterns, every call returns,
    and every memory record keeps the documented shape. *)
Theorem careful_runs_never_raise :
  forall (py : StrMethods) (trace : list (ToolContext * tool_call)),
    careful trace = true ->
    forallb returned (outcomes trace empty_state) = true
    /\ store_ok (run trace empty_state).
Proof.
  intros py trace Hcare. apply run_careful; [|exact Hcare].
  intros uid memory Hrec. unfold record_of in Hrec. simpl in Hrec.
  rewrite lookup_empty in Hrec. discriminate.
Qed.

Lemma careful_runs_witness :
  careful [(alice, call_save_to_memory "name" "Alice");
           (alice, call_save_therapeutic_pattern "Stressed" "quick walk" true);
           (bob, call_save_to_memory "journal_entry" "a long day")] = true
  /\ forallb returned
       (outcomes (py := ascii_methods)
          [(alice, call_save_to_memory "name" "Alice");
           (alice, call_save_therapeutic_pattern "Stressed" "quick walk" true);
           (bob, call_save_to_memory "journal_entry" "a long day")]
          empty_state) = true.
Proof.
  split; [reflexivity|].
  exact (proj1 (careful_runs_never_raise ascii_methods
                  [(alice, call_save_to_memory "name" "Alice");
                   (alice, call_save_therapeutic_pattern "Stressed"
                             "quick walk" true);
                   (bob, call_save_to_memory "journal_entry" "a long day")]
                  eq_refl)).
Defined.

(** ** The four keys [save_to_memory] knows *)

Section KnownKeys.

Implicit Types (memory : gmap string pyval) (st : State).

Lemma loaded_after_set uid memory st :
  loaded uid (memory_tools.set_memory uid memory st) = memory.
Proof.
  unfold loaded. now rewrite ensure_memory_set_memory, memory_of_set_memory.
Qed.

Lemma save_to_memory_routed key value tc st memory' :
  memory_tools.route key value (loaded (user_id tc) st) = Ok memory' ->
  memory_tools.save_to_memory key value tc st
  = (Ok ("✓ Saved " ++ key ++ " to memory"),
     memory_tools.set_memory (user_id tc) memory'
       (memory_tools.ensure_memory (user_id tc) st)).
Proof.
  unfold loaded, memory_tools.save_to_memory. now intros ->.
Qed.

Lemma route_list_key key value memory l :
  key = "history" \/ key = "interests" ->
  memory !! key = Some (VList l) ->
  memory_tools.route key value memory
  = Ok (<[key := VList (l ++ [VStr value])]> memory).
Proof.
  intros [-> | ->] H; unfold memory_tools.route, memory_tools.append_to;
    simpl; now rewrite H.
Qed.

Lemma save_all_step key v values tc st :
  save_all key (v :: values) tc st
  = save_all key values tc (snd (memory_tools.save_to_memory key v tc st)).
Proof. reflexivity. Qed.

End KnownKeys.

(** X10.  The keys history and interests accumulate.  When the user's
    record holds a list under the key, saving a list of values one after the
    other leaves, for [load_memory] to return, that list followed by the
    saved values in order, and every other field of the record as it
    was. *)
Theorem list_keys_accumulate_in_order :
  forall (key : string) (values : list string) (tc : ToolContext)
         (st : State) (l : list pyval),
    key = "history" \/ key = "interests" ->
    loaded (user_id tc) st !! key = Some (VList l) ->
    let st' := save_all key values tc st in
    loaded (user_id tc) st' !! key = Some (VList (l ++ map VStr values))
    /\ delete key (loaded (user_id tc) st')
       = delete key (loaded (user_id tc) st).
Proof.
  intros key values tc. induction values as [|v values IH];
    intros st l Hkey Hl st'.
  - unfold st'. simpl. now rewrite app_nil_r.
  - unfold st'. rewrite save_all_step.
    pose proof (route_list_key key v _ l Hkey Hl) as Hroute.
    rewrite (save_to_memory_routed _ _ _ _ _ Hroute). simpl snd.
    set (st1 := memory_tools.set_memory _ _ _).
    assert (Hst1 : loaded (user_id tc) st1
                   = <[key := VList (l ++ [VStr v])]> (loaded (user_id tc) st)).
    { apply loaded_after_set. }
    destruct (IH st1 (l ++ [VStr v])%list Hkey) as [Hlist Hrest].
    { rewrite Hst1. apply lookup_insert_eq. }
    split.
    + rewrite Hlist. simpl. now rewrite <- app_assoc.
    + rewrite Hrest, Hst1. apply delete_insert_eq.
Qed.

Lemma list_keys_accumulate_witness :
  ("history" = "history" \/ "history" = "interests")
  /\ loaded "alice" empty_state !! "history" = Some (VList [])
  /\ loaded "alice" (save_all "history" ["first"; "second"] alice empty_state)
     !! "history"
     = Some (VList [VStr "first"; VStr "second"]).
Proof.
  assert (H : loaded "alice" empty_state !! "history" = Some (VList []))
    by (vm_compute; reflexivity).
  split; [now left|]. split; [exact H|].
  exact (proj1 (list_keys_accumulate_in_order "history" ["first"; "second"]
                  alice empty_state [] (or_introl eq_refl) H)).
Defined.

(** X11.  The keys name and preferences overwrite one entry of a
    sub-dictionary: name writes personal_details.name and preferences
    writes preferences.general.  When the record holds a dictionary there,
    the call returns its confirmation; a second call replaces the value of
    the first, and the other entries of the sub-dictionary and the other
    fields of the record stay as they were. *)
Theorem dict_keys_overwrite_one_entry :
  forall (key field sub v1 v2 : string) (tc : ToolContext) (st : State)
         (d : gmap string pyval),
    (key = "name" /\ field = "personal_details" /\ sub = "name")
    \/ (key = "preferences" /\ field = "preferences" /\ sub = "general") ->
    loaded (user_id tc) st !! field = Some (VDict d) ->
    let r1 := memory_tools.save_to_memory key v1 tc st in
    let r2 := memory_tools.save_to_memory key v2 tc (snd r1) in
    fst r1 = Ok ("✓ Saved " ++ key ++ " to memory")
    /\ loaded (user_id tc) (snd r1) !! field
       = Some (VDict (<[sub := VStr v1]> d))
    /\ fst r2 = Ok ("✓ Saved " ++ key ++ " to memory")
    /\ loaded (user_id tc) (snd r2) !! field
       = Some (VDict (<[sub := VStr v2]> d))
    /\ delete field (loaded (user_id tc) (snd r2))
       = delete field (loaded (user_id tc) st).
Proof.
  intros key field sub v1 v2 tc st d Hkey Hd r1 r2.
  assert (Hroute : forall v memory d0,
             memory !! field = Some (VDict d0) ->
             memory_tools.route key v memory
             = Ok (<[field := VDict (<[sub := VStr v]> d0)]> memory)).
  { intros v memory d0 H.
    destruct Hkey as [(-> & -> & ->) | (-> & -> & ->)];
      unfold memory_tools.route, memory_tools.set_item_in; simpl;
      now rewrite H. }
  assert (H1 : r1 = (Ok ("✓ Saved " ++ key ++ " to memory"),
                     memory_tools.set_memory (user_id tc)
                       (<[field := VDict (<[sub := VStr v1]> d)]>
                          (loaded (user_id tc) st))
                       (memory_tools.ensure_memory (user_id tc) st))).
  { unfold r1. apply save_to_memory_routed. now apply Hroute. }
  assert (Hl1 : loaded (user_id tc) (snd r1)
                = <[field := VDict (<[sub := VStr v1]> d)]>
                    (loaded (user_id tc) st)).
  { rewrite H1. simpl. apply loaded_after_set. }
  assert (H2 : r2 = (Ok ("✓ Saved " ++ key ++ " to memory"),
                     memory_tools.set_memory (user_id tc)
                       (<[field := VDict (<[sub := VStr v2]>
                                            (<[sub := VStr v1]> d))]>
                          (loaded (user_id tc) (snd r1)))
                       (memory_tools.ensure_memory (user_id tc) (snd r1)))).
  { unfold r2. apply save_to_memory_routed. apply Hroute.
    rewrite Hl1. apply lookup_insert_eq. }
  assert (Hl2 : loaded (user_id tc) (snd r2)
                = <[field := VDict (<[sub := VStr v2]> d)]>
                    (loaded (user_id tc) st)).
  { rewrite H2. simpl. rewrite loaded_after_set, Hl1.
    now rewrite !insert_insert_eq. }
  split; [now rewrite H1|].
  split; [rewrite Hl1; apply lookup_insert_eq|].
  split; [now rewrite H2|].
  split; [rewrite Hl2; apply lookup_insert_eq|].
  rewrite Hl2. apply delete_insert_eq.
Qed.

Lemma dict_keys_overwrite_witness :
  (("name" = "name" /\ "personal_details" = "personal_details"
    /\ "name" = "name")
   \/ ("name" = "preferences" /\ "personal_details" = "preferences"
       /\ "name" = "general"))
  /\ loaded "alice" empty_state !! "personal_details" = Some (VDict ∅)
  /\ loaded "alice"
       (snd (memory_tools.save_to_memory "name" "Alice" alice
               (snd (memory_tools.save_to_memory "name" "Al" alice
                       empty_state))))
     !! "personal_details"
     = Some (VDict (<["name" := VStr "Alice"]> ∅)).
Proof.
  assert (H : loaded "alice" empty_state !! "personal_details"
              = Some (VDict ∅)) by (vm_compute; reflexivity).
  split; [left; repeat split|]. split; [exact H|].
  pose proof (dict_keys_overwrite_one_entry "name" "personal_details" "name"
                "Al" "Alice" alice empty_state ∅
                (or_introl (conj eq_refl (conj eq_refl eq_refl))) H)
    as (_ & _ & _ & Hfinal & _).
  exact Hfinal.
Defined.

(** ** Trigger buckets *)

(** X13.  On a record of the documented shape, [save_therapeutic_pattern]
    returns its confirmation and writes to one bucket only, the one stored
    under the lowered, trimmed trigger: the entry, the response with the
    time of the call, is appended to the helpful or the unhelpful list of
    that bucket (both empty when the bucket is new); the lists of any other
    trigger key, every field of the record other than therapeutic_patterns,
    and the tasks, reminders and goals of the store are left as they
    were. *)
Theorem save_therapeutic_pattern_writes_one_bucket :
  forall (py : StrMethods) (trigger response : string) (helpful : bool)
         (tc : ToolContext) (st : State) (k' : string),
    shape_ok (loaded (user_id tc) st) ->
    k' <> strip (lower trigger) ->
    let r :=
      memory_tools.save_therapeutic_pattern trigger response helpful tc st in
    let entry :=
      VDict {[ "response" := VStr response;
               "timestamp" := VStr (isoformat (now tc)) ]} in
    fst r
    = Ok (if helpful then "✓ Marked as helpful for '" ++ trigger ++ "'"
          else "✓ Marked as unhelpful for '" ++ trigger
                 ++ "' - will try different approach next time")
    /\ lists_at (strip (lower trigger)) (loaded (user_id tc) (snd r))
       = Some (add_entry helpful entry
                 (default ([], [])
                    (lists_at (strip (lower trigger))
                       (loaded (user_id tc) st))))
    /\ lists_at k' (loaded (user_id tc) (snd r))
       = lists_at k' (loaded (user_id tc) st)
    /\ delete "therapeutic_patterns" (loaded (user_id tc) (snd r))
       = delete "therapeutic_patterns" (loaded (user_id tc) st)
    /\ tasks (snd r) = tasks st /\ reminders (snd r) = reminders st
    /\ goals (snd r) = goals st.
Proof.
  intros py trigger response helpful tc st k' Hshape Hk' r entry.
  pose proof Hshape as (_ & _ & _ & _ & t & Ht & Hb).
  destruct (record_pattern_written (strip (lower trigger)) response
              (isoformat (now tc)) helpful _ t Ht Hb)
    as (patterns & bucket' & Ep & Hrec & Hlists).
  assert (Hr : r = (Ok (memory_tools.pattern_message trigger helpful),
                    memory_tools.set_memory (user_id tc)
                      (<["therapeutic_patterns" :=
                           VDict (<["triggers" :=
                                      VDict (<[strip (lower trigger)
                                               := bucket']> t)]> patterns)]>
                         (loaded (user_id tc) st))
                      (memory_tools.ensure_memory (user_id tc) st))).
  { unfold r, memory_tools.save_therapeutic_pattern,
      memory_tools.trigger_key.
    unfold loaded in Hrec. now rewrite Hrec. }
  rewrite Hr. simpl fst. simpl snd. rewrite loaded_after_set.
  split; [now destruct helpful|]. split.
  { unfold lists_at at 1. rewrite triggers_of_written, lookup_insert_eq.
    rewrite Hlists. do 2 f_equal.
    unfold lists_at. rewrite Ht.
    destruct (t !! strip (lower trigger)) as [bucket|] eqn:Ek;
      [reflexivity|].
    cbn [default]. now rewrite both_lists_empty_bucket. }
  split.
  { unfold lists_at. rewrite triggers_of_written, Ht.
    now rewrite lookup_insert_ne by congruence. }
  split; [apply delete_insert_eq|].
  simpl. now rewrite tasks_ensure_memory, reminders_ensure_memory,
    goals_ensure_memory.
Qed.

Lemma save_therapeutic_pattern_one_bucket_witness :
  shape_ok (loaded (user_id alice) empty_state)
  /\ "tired" <> ascii_strip (ascii_lower " Stressed ")
  /\ fst (memory_tools.save_therapeutic_pattern (py := ascii_methods)
            " Stressed " "quick walk" true alice empty_state)
     = Ok "✓ Marked as helpful for ' Stressed '"
  /\ lists_at "stressed"
       (loaded "alice"
          (snd (memory_tools.save_therapeutic_pattern (py := ascii_methods)
                  " Stressed " "quick walk" true alice empty_state)))
     = Some ([VDict {[ "response" := VStr "quick walk";
                       "timestamp" := VStr "2025-12-01T10:30:00" ]}], []).
Proof.
  assert (Hs : shape_ok (loaded (user_id alice) empty_state)).
  { unfold loaded. rewrite memory_of_ensure. exact shape_default. }
  assert (Hk : "tired" <> ascii_strip (ascii_lower " Stressed "))
    by discriminate.
  split; [exact Hs|]. split; [exact Hk|].
  pose proof (save_therapeutic_pattern_writes_one_bucket ascii_methods
                " Stressed " "quick walk" true alice empty_state "tired"
                Hs Hk) as (Hmsg & Hat & _).
  split; [exact Hmsg|exact Hat].
Defined.

(** ** What the goal listings show *)

Section Shown.

Implicit Types (gs : list Goal) (st : State).

Lemma cons_eq_inv {A} (a b : A) (l l' : list A) :
  a :: l = b :: l' -> a = b /\ l = l'.
Proof. intros H. split; congruence. Qed.

Lemma find_without_status (test : Goal -> bool) gs gs' :
  (forall g, test (without_status g) = test g) ->
  map without_status gs' = map without_status gs ->
  option_map without_status (List.find test gs')
  = option_map without_status (List.find test gs).
Proof.
  intros Htest. revert gs'.
  induction gs as [|g gs IH]; intros [|g' gs'] H;
    try discriminate; [reflexivity|].
  cbn [map] in H. apply cons_eq_inv in H as [Hg Hrest]. cbn [List.find].
  rewrite <- (Htest g'), Hg, Htest.
  destruct (test g); cbn [option_map]; [now rewrite Hg | now apply IH].
Qed.

Lemma filter_without_status (test : Goal -> bool) gs gs' :
  (forall g, test (without_status g) = test g) ->
  map without_status gs' = map without_status gs ->
  map without_status (List.filter test gs')
  = map without_status (List.filter test gs).
Proof.
  intros Htest. revert gs'.
  induction gs as [|g gs IH]; intros [|g' gs'] H;
    try discriminate; [reflexivity|].
  cbn [map] in H. apply cons_eq_inv in H as [Hg Hrest]. cbn [List.filter].
  rewrite <- (Htest g'), Hg, Htest.
  destruct (test g); cbn [map]; [rewrite Hg; f_equal|]; now apply IH.
Qed.

Lemma fold_summaries_without_status (l l' : list Goal) init :
  map without_status l' = map without_status l ->
  fold_left (fun result goal => result ++ goal_tools.goal_summary goal) l' init
  = fold_left (fun result goal => result ++ goal_tools.goal_summary goal) l
      init.
Proof.
  revert l' init. induction l as [|g l IH]; intros [|g' l'] init H;
    try discriminate; [reflexivity|].
  cbn [map] in H. apply cons_eq_inv in H as [Hg Hrest]. cbn [fold_left].
  change (goal_tools.goal_summary g')
    with (goal_tools.goal_summary (without_status g')).
  rewrite Hg. now apply IH.
Qed.

Lemma render_goals_without_status (l l' : list Goal) :
  map without_status l' = map without_status l ->
  render_goals l' = render_goals l.
Proof.
  intros H. pose proof (f_equal (@length _) H) as Hlen.
  rewrite !length_map in Hlen.
  destruct l as [|g l]; destruct l' as [|g' l']; try discriminate;
    [reflexivity|].
  unfold render_goals. rewrite Hlen. f_equal.
  now apply fold_summaries_without_status.
Qed.

End Shown.

(** X14.  [get_goal] and [list_goals] never show a goal's status: what they
    print is read from the approval flag and the descriptive fields.  So
    [update_goal_status], whoever calls it and whatever the status, changes
    nothing in the answer of either tool. *)
Theorem status_updates_are_not_displayed :
  forall (goal_id : Z) (status : string) (tc : ToolContext) (st : State)
         (asked : Z) (reader : ToolContext),
    let st' := snd (goal_tools.update_goal_status goal_id status tc st) in
    fst (goal_tools.get_goal asked reader st')
    = fst (goal_tools.get_goal asked reader st)
    /\ fst (goal_tools.list_goals reader st')
       = fst (goal_tools.list_goals reader st).
Proof.
  intros goal_id status tc st asked reader st'.
  assert (Hmap : map without_status (goals_list st')
                 = map without_status (goals_list st)).
  { unfold st'.
    pose proof (invoke_goals (py := ascii_methods)
                  (call_update_goal_status goal_id status) tc st) as H.
    simpl in H. rewrite H.
    destruct (goal_tools.update_first _ _ (goals_list st)) as [[gs' g']|] eqn:E;
      [|reflexivity].
    eapply update_first_keeps; [|exact E]. reflexivity. }
  assert (Hnone : goals st = None -> goals st' = None).
  { intros E. unfold st', goal_tools.update_goal_status. now rewrite E. }
  assert (Hsome : forall gs, goals st = Some gs -> exists gs',
                    goals st' = Some gs').
  { intros gs E. unfold st', goal_tools.update_goal_status. rewrite E.
    destruct (goal_tools.update_first _ _ gs) as [[gs' g']|]; simpl; eauto. }
  split.
  - unfold goal_tools.get_goal.
    destruct (goals st) as [gs|] eqn:E.
    + destruct (Hsome gs eq_refl) as [gs' E']. rewrite E'.
      unfold goals_list in Hmap. rewrite E, E' in Hmap. simpl in Hmap.
      pose proof (find_without_status
                    (goal_tools.is_goal asked (user_id reader)) gs gs'
                    (fun g => eq_refl) Hmap) as Hf.
      destruct (List.find _ gs') as [g'|]; destruct (List.find _ gs) as [g|];
        cbn [option_map] in Hf; try discriminate; [|reflexivity].
      assert (Hg : without_status g' = without_status g) by congruence.
      cbn [fst].
      change (goal_tools.goal_details asked g')
        with (goal_tools.goal_details asked (without_status g')).
      now rewrite Hg.
    + now rewrite (Hnone eq_refl).
  - rewrite !list_goals_renders. apply render_goals_without_status.
    apply filter_without_status; [reflexivity|exact Hmap].
Qed.

(** ** Which part of the store a tool writes *)

(** X15.  The three memory tools write nothing but memory records: the
    tasks, reminders and goals keys of the store are left exactly as they
    were, also when the call raises.  Every other tool leaves the memory
    records exactly as they were. *)
Theorem memory_and_collections_are_written_apart :
  forall (py : StrMethods) (c : tool_call) (tc : ToolContext) (st : State),
    let st' := snd (invoke c tc st) in
    if writes_memory c
    then tasks st' = tasks st /\ reminders st' = reminders st
         /\ goals st' = goals st
    else user_memories st' = user_memories st.
Proof.
  intros py c tc st st'. unfold st'. clear st'.
  destruct c; cbn [writes_memory];
    unfold invoke, returns_str, may_return_str; cbn [fst snd].
  - unfold memory_tools.load_memory. cbn [snd].
    now rewrite tasks_ensure_memory, reminders_ensure_memory,
      goals_ensure_memory.
  - unfold memory_tools.save_to_memory.
    destruct (memory_tools.route _ _ _); cbn [fst snd];
      unfold memory_tools.set_memory, set_user_memories; cbn [tasks reminders goals];
      now rewrite tasks_ensure_memory, reminders_ensure_memory,
        goals_ensure_memory.
  - unfold memory_tools.save_therapeutic_pattern.
    destruct (memory_tools.record_pattern _ _ _ _ _) as [[?|?] ?];
      cbn [fst snd];
      unfold memory_tools.set_memory, set_user_memories; cbn [tasks reminders goals];
      now rewrite tasks_ensure_memory, reminders_ensure_memory,
        goals_ensure_memory.
  - unfold task_tools.create_task. cbn [snd].
    destruct (tasks st) eqn:E; simpl; rewrite ?E; reflexivity.
  - rewrite snd_get_tasks. apply init_tasks_frame.
  - unfold task_tools.schedule_reminder. cbn [snd].
    destruct (reminders st) eqn:E; simpl; rewrite ?E; reflexivity.
  - rewrite snd_get_reminders. apply init_reminders_frame.
  - rewrite snd_get_all_items.
    rewrite (proj2 (proj2 (init_reminders_frame _))).
    apply init_tasks_frame.
  - reflexivity.
  - unfold goal_tools.create_goal_with_routine. cbn [snd].
    destruct (goals st) eqn:E; simpl; rewrite ?E; reflexivity.
  - unfold goal_tools.approve_goal.
    destruct (goals st) as [gs|]; [|reflexivity].
    now destruct (goal_tools.update_first _ _ gs) as [[gs' g']|].
  - now rewrite snd_get_goal.
  - now rewrite snd_list_goals.
  - unfold goal_tools.update_goal_status.
    destruct (goals st) as [gs|]; [|reflexivity].
    now destruct (goal_tools.update_first _ _ gs) as [[gs' g']|].
Qed.
